(** * Overdue-interest debit notes: a shallow embedding of the pipeline

    The three stages of the program are embedded as functions on tables:
    - [DataProcessor]       (src/modules/data_processor.py),
    - [InterestCalculator]  (src/modules/interest_calculator.py),
    - [DebitNoteGenerator]  (src/modules/debit_note_generator.py).

    A pandas [DataFrame] is a list of column names together with a list of
    rows, every row a finite map from column name to cell.  Numeric cells
    carry exact rationals: binary64 rounding of the arithmetic is not part
    of the model, and infinities are outside it.  Python strings are Rocq
    strings holding the UTF-8 bytes of the text.  An exception raised by
    pandas is a value [Err e] of the type [result]. *)

From Stdlib Require Import ZArith QArith Qround Qabs Qminmax Lqa Lia.
From Stdlib Require Import Ascii String DecimalString DecimalZ DecimalFacts Sorted Permutation.
From stdpp Require Import gmap strings list fin_maps.

Open Scope string_scope.

(** ** Exceptions *)

Inductive error : Type :=
| KeyError (col : string)
| TypeError
| ValueError.

Inductive result (A : Type) : Type :=
| OK (a : A)
| Err (e : error).
Arguments OK {A} a.
Arguments Err {A} e.

#[global] Instance result_ret : MRet result := fun _ a => OK a.
#[global] Instance result_bind : MBind result := fun _ _ k r =>
  match r with
  | OK a => k a
  | Err e => Err e
  end.

(** Runs a fallible function over a list, left to right; the first failure wins. *)
Fixpoint traverse {A B : Type} (f : A -> result B) (l : list A) : result (list B) :=
  match l with
  | [] => OK []
  | a :: l' => b ← f a; bs ← traverse f l'; OK (b :: bs)
  end.

(** ** Python string methods *)

Module Py.

(** [String.prefix] with the remainder: [Some rest] when [s = p ++ rest]. *)
Fixpoint drop_prefix (p s : string) : option string :=
  match p, s with
  | EmptyString, _ => Some s
  | String a p', String b s' => if Ascii.eqb a b then drop_prefix p' s' else None
  | String _ _, EmptyString => None
  end.

(** The scan of [str.replace(old, new)] for a non-empty [old]: left to right,
    occurrences do not overlap; [skip] counts the characters of a matched
    occurrence that are still to be passed over. *)
Fixpoint replace_from (old new : string) (skip : nat) (s : string) : string :=
  match s with
  | EmptyString => EmptyString
  | String c s' =>
      match skip with
      | S k => replace_from old new k s'
      | O =>
          if String.prefix old s
          then new ++ replace_from old new (String.length old - 1) s'
          else String c (replace_from old new 0 s')
      end
  end.

(** With an empty [old] Python puts [new] before every character and at the end. *)
Fixpoint surround (new s : string) : string :=
  match s with
  | EmptyString => new
  | String c s' => new ++ String c (surround new s')
  end.

Definition replace (old new s : string) : string :=
  match old with
  | EmptyString => surround new s
  | String _ _ => replace_from old new 0 s
  end.

Definition bytes (l : list nat) : string :=
  fold_right (fun n s => String (ascii_of_nat n) s) EmptyString l.

(** The characters [str.isspace] accepts, as UTF-8 byte sequences:
    U+0009..U+000D, U+001C..U+001F, U+0020, U+0085, U+00A0, U+1680,
    U+2000..U+200A, U+2028, U+2029, U+202F, U+205F, U+3000. *)
Definition whitespace : list (list nat) :=
  [ [9]; [10]; [11]; [12]; [13]; [28]; [29]; [30]; [31]; [32];
    [194; 133]; [194; 160]; [225; 154; 128];
    [226; 128; 128]; [226; 128; 129]; [226; 128; 130]; [226; 128; 131];
    [226; 128; 132]; [226; 128; 133]; [226; 128; 134]; [226; 128; 135];
    [226; 128; 136]; [226; 128; 137]; [226; 128; 138];
    [226; 128; 168]; [226; 128; 169]; [226; 128; 175];
    [226; 129; 159]; [227; 128; 128] ].

Fixpoint drop_any (ws : list string) (s : string) : option string :=
  match ws with
  | [] => None
  | w :: ws' =>
      match drop_prefix w s with
      | Some rest => Some rest
      | None => drop_any ws' s
      end
  end.

Fixpoint strip_front (ws : list string) (fuel : nat) (s : string) : string :=
  match fuel with
  | O => s
  | S k =>
      match drop_any ws s with
      | Some rest => strip_front ws k rest
      | None => s
      end
  end.

Fixpoint rev_string (s : string) : string :=
  match s with
  | EmptyString => EmptyString
  | String c s' => rev_string s' ++ String c EmptyString
  end.

Definition lstrip (s : string) : string :=
  strip_front (map bytes whitespace) (String.length s) s.

Definition rstrip (s : string) : string :=
  rev_string
    (strip_front (map (fun w => bytes (rev w)) whitespace) (String.length s) (rev_string s)).

(** [str.strip()] *)
Definition strip (s : string) : string := rstrip (lstrip s).

Fixpoint zeros (n : nat) : string :=
  match n with
  | O => EmptyString
  | S k => String "0" (zeros k)
  end.

(** [str.zfill(width)]: zeros on the left up to [width], after a leading sign. *)
Definition zfill (width : nat) (s : string) : string :=
  let pad := zeros (width - String.length s) in
  match s with
  | String c rest =>
      if Ascii.eqb c "+" || Ascii.eqb c "-" then String c (pad ++ rest) else pad ++ s
  | EmptyString => pad
  end.

(** [str(n)] of an int. *)
Definition str_of_int (z : Z) : string := NilZero.string_of_int (Z.to_int z).



End Py.

(** ** Cells, series and tables *)

Module Pandas.

(** A cell: text, a number, a boolean, or missing (NaN). *)
Inductive value : Type :=
| VStr (s : string)
| VNum (q : Q)
| VBool (b : bool)
| VNaN.

Abbreviation Series := (list value).

Record DataFrame : Type := mkDF {
  columns : list string;
  rows : list (gmap string value)
}.

Definition num (q : Q) : value := VNum (Qred q).
Definition int (z : Z) : value := VNum (inject_Z z).

Definition cell (c : string) (r : gmap string value) : value := default VNaN (r !! c).

Definition has_column (df : DataFrame) (c : string) : bool := bool_decide (c ∈ columns df).

(** [df[c]] *)
Definition getitem (df : DataFrame) (c : string) : result Series :=
  if has_column df c then OK (map (cell c) (rows df)) else Err (KeyError c).

Definition add_column (c : string) (cols : list string) : list string :=
  if bool_decide (c ∈ cols) then cols else cols ++ [c].

(** [df[c] = s]: the series is aligned by position, a row without a
    value gets NaN; a new column goes last. *)
Definition setitem (df : DataFrame) (c : string) (s : Series) : DataFrame :=
  {| columns := add_column c (columns df);
     rows := imap (fun i r => <[c := default VNaN (s !! i)]> r) (rows df) |}.

(** [df[c] = v] for a scalar [v]. *)
Definition setconst (df : DataFrame) (c : string) (v : value) : DataFrame :=
  {| columns := add_column c (columns df);
     rows := map (fun r => <[c := v]> r) (rows df) |}.

Fixpoint select {A : Type} (mask : list bool) (l : list A) : list A :=
  match mask, l with
  | true :: m, x :: l' => x :: select m l'
  | false :: m, _ :: l' => select m l'
  | _, _ => []
  end.

(** [df[mask]] for a boolean series computed from [df]. *)
Definition getmask (df : DataFrame) (mask : list bool) : DataFrame :=
  {| columns := columns df; rows := select mask (rows df) |}.

(** The first name of [cols] that is not a column of the table. *)
Definition missing_column (df : DataFrame) (cols : list string) : option string :=
  List.find (fun c => negb (has_column df c)) cols.

Definition project (cols : list string) (r : gmap string value) : gmap string value :=
  fold_right (fun c m => <[c := cell c r]> m) ∅ cols.

(** [df[cols]] for a list of names. *)
Definition getcols (df : DataFrame) (cols : list string) : result DataFrame :=
  match missing_column df cols with
  | Some c => Err (KeyError c)
  | None => OK {| columns := cols; rows := map (project cols) (rows df) |}
  end.

(** [df.drop(columns=cols)] with every name of [cols] present. *)
Definition drop (df : DataFrame) (cols : list string) : DataFrame :=
  {| columns := List.filter (fun c => negb (bool_decide (c ∈ cols))) (columns df);
     rows := map (fun r => fold_right (fun c m => delete c m) r cols) (rows df) |}.

(** [df.rename(columns={old: new})]; a name that is no column is ignored.
    (Tables with two columns of one name are outside the model: in the
    program [new] is never a column already.) *)
Definition rename (df : DataFrame) (old new : string) : DataFrame :=
  if has_column df old
  then {| columns := map (fun c => if String.eqb c old then new else c) (columns df);
          rows := map (fun r => <[new := cell old r]> (delete old r)) (rows df) |}
  else df.

(** The index is positional in this model. *)
Definition reset_index (df : DataFrame) : DataFrame := df.
Definition copy (df : DataFrame) : DataFrame := df.

(** [df.loc[mask, c] = v] on an existing column [c]. *)
Definition loc_setconst (df : DataFrame) (mask : list bool) (c : string) (v : value) : DataFrame :=
  {| columns := add_column c (columns df);
     rows := imap (fun i r => if default false (mask !! i) then <[c := v]> r else r) (rows df) |}.

(** *** Arithmetic on cells *)

(** The number a cell stands for in arithmetic and comparisons: a boolean
    counts as 0 or 1, NaN is [None], text raises. *)
Definition as_num (v : value) : result (option Q) :=
  match v with
  | VNum q => OK (Some q)
  | VBool b => OK (Some (if b then 1%Q else 0%Q))
  | VNaN => OK None
  | VStr _ => Err TypeError
  end.

Definition of_num (o : option Q) : value :=
  match o with
  | Some q => num q
  | None => VNaN
  end.

Definition lift2 (op : Q -> Q -> Q) (a b : value) : result value :=
  x ← as_num a; y ← as_num b;
  OK (match x, y with
      | Some p, Some q => num (op p q)
      | _, _ => VNaN
      end).

Definition lift1 (op : Q -> Q) (a : value) : result value :=
  x ← as_num a; OK (of_num (op <$> x)).

Definition Qgtb (p q : Q) : bool := negb (Qle_bool p q).

(** [s > k]: a missing value compares false. *)
Definition series_gt (s : Series) (k : Q) : result (list bool) :=
  traverse (fun v => x ← as_num v; OK (from_option (fun q => Qgtb q k) false x)) s.

(** [s == v] against a text scalar. *)
Definition series_eq_str (s : Series) (t : string) : list bool :=
  map (fun v => match v with VStr u => String.eqb u t | _ => false end) s.

Definition series_sub_scalar (s : Series) (k : Q) : result Series :=
  traverse (lift1 (fun q => q - k)%Q) s.

Definition series_div_scalar (s : Series) (k : Q) : result Series :=
  traverse (lift1 (fun q => q / k)%Q) s.

Definition series_sub (s t : Series) : result Series :=
  traverse (fun p => lift2 Qminus p.1 p.2) (zip s t).

Definition series_mul (s t : Series) : result Series :=
  traverse (fun p => lift2 Qmult p.1 p.2) (zip s t).

(** [s.clip(upper=k)] *)
Definition series_clip_upper (s : Series) (k : Q) : result Series :=
  traverse (lift1 (fun q => if Qgtb q k then k else q)) s.

(** Nearest integer, a tie goes to the even one (numpy's [rint]). *)
Definition rint (q : Q) : Z :=
  let f := Qfloor q in
  match (q - inject_Z f ?= 1 # 2)%Q with
  | Lt => f
  | Gt => (f + 1)%Z
  | Eq => if Z.even f then f else (f + 1)%Z
  end.

(** numpy rounds to [d] decimals by scaling: [rint(x * 10^d) / 10^d]. *)
Definition round_decimals (d : nat) (q : Q) : Q :=
  (inject_Z (rint (q * inject_Z (10 ^ Z.of_nat d))) / inject_Z (10 ^ Z.of_nat d))%Q.

(** [s.round(d)] *)
Definition series_round (d : nat) (s : Series) : result Series :=
  traverse (lift1 (round_decimals d)) s.

(** [s.astype(int)]: a missing value cannot be cast. *)
Definition series_astype_int (s : Series) : result Series :=
  traverse (fun v => x ← as_num v;
                     match x with
                     | Some q => OK (int (Z.quot (Qnum q) (Z.pos (Qden q))))
                     | None => Err ValueError
                     end) s.

(** *** Ordering of cells and sorting *)

Definition is_str (v : value) : bool := match v with VStr _ => true | _ => false end.
Definition is_nan (v : value) : bool := match v with VNaN => true | _ => false end.
Definition is_numeric (v : value) : bool :=
  match v with VNum _ | VBool _ => true | _ => false end.

Definition numeric_of (v : value) : Q :=
  match v with
  | VNum q => q
  | VBool true => 1
  | _ => 0
  end.

(** Numbers by value, text by code point, numbers before text, NaN last. *)
Definition value_leb (a b : value) : bool :=
  match a, b with
  | _, VNaN => true
  | VNaN, _ => false
  | VStr s, VStr t => String.leb s t
  | VStr _, _ => false
  | _, VStr _ => true
  | _, _ => Qle_bool (numeric_of a) (numeric_of b)
  end.

(** Equality of keys: numbers by value, text by characters; NaN equals nothing. *)
Definition value_eqb (a b : value) : bool :=
  match a, b with
  | VNaN, _ | _, VNaN => false
  | VStr s, VStr t => String.eqb s t
  | VStr _, _ | _, VStr _ => false
  | _, _ => Qeq_bool (numeric_of a) (numeric_of b)
  end.

Fixpoint insert_by {A : Type} (leb : A -> A -> bool) (x : A) (l : list A) : list A :=
  match l with
  | [] => [x]
  | y :: l' => if leb x y then x :: l else y :: insert_by leb x l'
  end.

Definition lebP {A : Type} (leb : A -> A -> bool) (x y : A) : Prop := leb x y = true.

(** A stable sort: of two rows with equal keys the earlier one stays first. *)
Definition sort_by {A : Type} (leb : A -> A -> bool) (l : list A) : list A :=
  fold_right (insert_by leb) [] l.

(** Python cannot order text against a number. *)
Definition comparable (s : Series) : bool :=
  negb (existsb is_str s && existsb is_numeric s).

(** [df.sort_values(c)], ascending, missing keys last; modelled as a stable sort. *)
Definition sort_values (df : DataFrame) (c : string) : result DataFrame :=
  s ← getitem df c;
  if comparable s
  then OK {| columns := columns df;
             rows := sort_by (fun r1 r2 => value_leb (cell c r1) (cell c r2)) (rows df) |}
  else Err TypeError.

(** *** Group by with sum *)

Definition key_of (keys : list string) (r : gmap string value) : list value :=
  map (fun c => cell c r) keys.

Fixpoint key_eqb (k1 k2 : list value) : bool :=
  match k1, k2 with
  | [], [] => true
  | a :: k1', b :: k2' => value_eqb a b && key_eqb k1' k2'
  | _, _ => false
  end.

(** Lexicographic order of composite keys. *)
Fixpoint key_leb (k1 k2 : list value) : bool :=
  match k1, k2 with
  | [], _ => true
  | _ :: _, [] => false
  | a :: k1', b :: k2' =>
      if value_leb a b then (if value_leb b a then key_leb k1' k2' else true) else false
  end.

(** The distinct elements, each at its first occurrence. *)
Fixpoint nub_by {A : Type} (eqb : A -> A -> bool) (l : list A) : list A :=
  match l with
  | [] => []
  | x :: l' => x :: List.filter (fun y => negb (eqb x y)) (nub_by eqb l')
  end.

(** Sum of a group's cells; missing values are skipped. *)
Fixpoint sum_skipna (s : Series) : result Q :=
  match s with
  | [] => OK 0%Q
  | v :: s' => x ← as_num v; t ← sum_skipna s'; OK (from_option (fun q => q + t)%Q t x)
  end.

(** Rows that take part in a group by: those with no missing key ([dropna=True]). *)
Definition keyed_rows (df : DataFrame) (keys : list string) : list (gmap string value) :=
  List.filter (fun r => negb (existsb is_nan (key_of keys r))) (rows df).

(** The distinct keys, in ascending order ([sort=True]). *)
Definition group_index (df : DataFrame) (keys : list string) : list (list value) :=
  sort_by key_leb (nub_by key_eqb (map (key_of keys) (keyed_rows df keys))).

(** The rows of the group with key [k]. *)
Definition group_rows (df : DataFrame) (keys : list string) (k : list value)
  : list (gmap string value) :=
  List.filter (fun r => key_eqb k (key_of keys r)) (keyed_rows df keys).

(** [df.groupby(keys).agg({c: 'sum'}).reset_index()]: one row per distinct
    key, holding the key cells and the sum of column [c] over the group. *)
Definition groupby_sum (df : DataFrame) (keys : list string) (c : string) : result DataFrame :=
  match missing_column df (keys ++ [c]) with
  | Some m => Err (KeyError m)
  | None =>
      gs ← traverse (fun k =>
             t ← sum_skipna (map (cell c) (group_rows df keys k));
             OK (<[c := num t]> (list_to_map (zip keys k)))) (group_index df keys);
      OK {| columns := keys ++ [c]; rows := gs |}
  end.

End Pandas.
Import Pandas.

(** ** src/modules/data_processor.py *)

Module DataProcessor.

Definition filter_overdue (df : DataFrame) : result DataFrame :=
  status ← getitem df "Status";
  OK (copy (getmask df (series_eq_str status "Overdue"))).

Definition remove_duplicate_columns (df : DataFrame) : DataFrame :=
  let columns_to_drop := ["Sale person"] in
  drop df (List.filter (fun col => has_column df col) columns_to_drop).

(** [.astype(str)] followed by string methods [f].  The repr of a number
    holds digits and at most a sign, a point and an exponent: the edits of
    this module leave it alone and [to_numeric] reads the same number back,
    so a numeric cell stands for its own repr. *)
Definition astype_str_then (f : string -> string) (v : value) : value :=
  match v with
  | VStr s => VStr (f s)
  | VNum q => VNum q
  | VBool b => VStr (f (if b then "True" else "False"))
  | VNaN => VStr (f "nan")
  end.

Definition digit (c : ascii) : option Z :=
  let n := Z.of_N (N_of_ascii c) in
  if (48 <=? n)%Z && (n <=? 57)%Z then Some (n - 48)%Z else None.

(** Reads a run of decimal digits: the number read so far, how many digits, the rest. *)
Fixpoint read_digits (acc cnt : Z) (s : string) : Z * Z * string :=
  match s with
  | String c s' =>
      match digit c with
      | Some d => read_digits (10 * acc + d)%Z (cnt + 1)%Z s'
      | None => (acc, cnt, s)
      end
  | EmptyString => (acc, cnt, s)
  end.

Definition read_sign (s : string) : bool * string :=
  match s with
  | String c r =>
      if Ascii.eqb c "-" then (true, r) else if Ascii.eqb c "+" then (false, r) else (false, s)
  | EmptyString => (false, s)
  end.

Definition read_exponent (s : string) : option Z :=
  match s with
  | EmptyString => Some 0%Z
  | String c r =>
      if Ascii.eqb c "e" || Ascii.eqb c "E"
      then let '(eneg, r1) := read_sign r in
           let '(e, ne, r2) := read_digits 0 0 r1 in
           if (0 <? ne)%Z && String.eqb r2 "" then Some (if eneg then - e else e)%Z else None
      else None
  end.

(** The number a text denotes for [pd.to_numeric]: a decimal literal
    [sign digits . digits e sign digits] with at least one mantissa digit;
    anything else (the empty text and "nan" too) is no number. *)
Definition to_numeric_str (s : string) : option Q :=
  let '(neg, s1) := read_sign s in
  let '(ip, ni, s2) := read_digits 0 0 s1 in
  let '(m, nf, s3) :=
    match s2 with
    | String c r => if Ascii.eqb c "." then read_digits ip 0 r else (ip, 0%Z, s2)
    | EmptyString => (ip, 0%Z, s2)
    end in
  if (ni + nf =? 0)%Z then None
  else match read_exponent s3 with
       | Some e => Some (Qred (inject_Z (if neg then - m else m) * Qpower 10 (e - nf)))
       | None => None
       end.

(** [pd.to_numeric(s, errors='coerce')] on one cell. *)
Definition to_numeric (v : value) : value :=
  match v with
  | VStr s => of_num (to_numeric_str s)
  | VBool b => VNum (if b then 1 else 0)
  | _ => v
  end.

Definition fillna (fill : Q) (v : value) : value :=
  match v with
  | VNaN => VNum fill
  | _ => v
  end.

Definition clean_currency_column (df : DataFrame) (column_name : string) (fill_na : Q)
  : result DataFrame :=
  s ← getitem df column_name;
  let df := setitem df column_name
              (map (astype_str_then
                      (fun t => Py.strip (Py.replace "," "" (Py.replace "â‚¹" "" t)))) s) in
  s ← getitem df column_name;
  OK (setitem df column_name (map (fun v => fillna fill_na (to_numeric v)) s)).

Definition default_opening_balance_age : Z := 300.

Definition clean_age_column (df : DataFrame) (opening_balance_age : Z) : result DataFrame :=
  s ← getitem df "Age";
  let df := setitem df "Age"
              (map (astype_str_then (fun t => Py.strip (Py.replace " Days" "" t))) s) in
  s ← getitem df "Age";
  let df := setitem df "Age" (map to_numeric s) in
  ty ← getitem df "Type";
  OK (loc_setconst df (series_eq_str ty "Customer Opening Balance") "Age" (int opening_balance_age)).

Definition clean_data (df : DataFrame) (opening_balance_age : Z) : result DataFrame :=
  let df := remove_duplicate_columns df in
  df ← clean_currency_column df "Balance Due" 0;
  df ← clean_currency_column df "Amount" 0;
  clean_age_column df opening_balance_age.


End DataProcessor.

(** ** src/modules/interest_calculator.py *)

Module InterestCalculator.

Record t : Type := mk {
  per_day_rate : Q;
  due_days_threshold : Z;
  max_working_days : Z
}.

(** [__init__]: the three arguments are stored as they come. *)
Definition init (per_day_rate : Q) (due_days_threshold max_working_days : Z) : t :=
  {| per_day_rate := per_day_rate;
     due_days_threshold := due_days_threshold;
     max_working_days := max_working_days |}.

Definition default : t := init (6 # 100) 150 31.

Definition filter_by_age (self : t) (df : DataFrame) : result DataFrame :=
  age ← getitem df "Age";
  mask ← series_gt age (inject_Z (due_days_threshold self));
  OK (copy (getmask df mask)).

Definition calculate_working_days (self : t) (df : DataFrame) : result DataFrame :=
  let df := setconst df "Due days" (int (due_days_threshold self)) in
  age ← getitem df "Age";
  days_overdue ← series_sub_scalar age (inject_Z (due_days_threshold self));
  working ← series_clip_upper days_overdue (inject_Z (max_working_days self));
  let df := setitem df "interst working" working in
  working ← getitem df "interst working";
  previous ← series_sub days_overdue working;
  OK (setitem df "Previous interst" previous).

Definition calculate_interest_percentage (self : t) (df : DataFrame) : result DataFrame :=
  let df := setconst df "per day interst%" (num (per_day_rate self)) in
  working ← getitem df "interst working";
  rate ← getitem df "per day interst%";
  pct ← series_mul working rate;
  OK (setitem df "working interst in %" pct).

Definition calculate_interest_amount (self : t) (df : DataFrame) : result DataFrame :=
  balance ← getitem df "Balance Due";
  pct ← getitem df "working interst in %";
  frac ← series_div_scalar pct 100;
  amount ← series_mul balance frac;
  let df := setitem df "interest amount" amount in
  amount ← getitem df "interest amount";
  rounded ← series_round 4 amount;
  OK (setitem df "interest amount" rounded).

Definition final_columns : list string :=
  [ "Region"; "Area Name"; "Market"; "Customer Name"; "Customer Number"; "DATE";
    "Transaction#"; "Type"; "Status"; "Due Date"; "Amount"; "Balance Due"; "Age";
    "Due days"; "Previous interst"; "interst working"; "per day interst%";
    "working interst in %"; "interest amount"; "Sale Person" ].

Definition select_final_columns (df : DataFrame) : result DataFrame :=
  getcols df final_columns.

Definition calculate_interest (self : t) (df : DataFrame) : result DataFrame :=
  df ← filter_by_age self df;
  df ← sort_values df "Customer Name";
  let df := reset_index df in
  df ← calculate_working_days self df;
  df ← calculate_interest_percentage self df;
  df ← calculate_interest_amount self df;
  select_final_columns df.

End InterestCalculator.

(** ** src/modules/debit_note_generator.py *)

Module DebitNoteGenerator.

Record t : Type := mk {
  invoice_prefix : string;
  starting_number : Z
}.

(** [__init__] *)
Definition init (invoice_prefix : string) (starting_number : Z) : t :=
  {| invoice_prefix := invoice_prefix; starting_number := starting_number |}.

Definition default : t := init "CDN/SA-" 311.

Definition group_keys : list string :=
  [ "Customer Number"; "Customer Name"; "Area Name"; "Region"; "Sales person" ].

Definition group_by_customer (df : DataFrame) : result DataFrame :=
  df_grouped ← groupby_sum df group_keys "interest amount";
  OK (rename df_grouped "interest amount" "Total").

Definition round_totals (df : DataFrame) : result DataFrame :=
  total ← getitem df "Total";
  rounded ← series_round 0 total;
  whole ← series_astype_int rounded;
  OK (setitem df "Total" whole).

(** [today] is the text of [datetime.now().strftime('%Y-%m-%d')]. *)
Definition add_debit_note_fields (today : string) (df : DataFrame) : result DataFrame :=
  let df := setconst df "Description" (VStr "OD Charges Dec-2025") in
  let df := setconst df "Invoice Status" (VStr "Open") in
  let df := setconst df "Accounts Receivable" (VStr "Accounts Receivable") in
  let df := setconst df "Is Inclusive Tax" (VBool true) in
  total ← getitem df "Total";
  let df := setitem df "SubTotal" total in
  total ← getitem df "Total";
  let df := setitem df "Balance" total in
  let df := setconst df "Notes" (VStr "OD Charges Dec-2025") in
  let df := setconst df "Invoice Type" (VStr "Debit Notes") in
  let df := setconst df "Location Name" (VStr "Head Office") in
  let df := setconst df "Item Desc" (VStr "OD Charges Dec-2025") in
  let df := setconst df "Quantity" (int 1) in
  total ← getitem df "Total";
  let df := setitem df "Item Total" total in
  total ← getitem df "Total";
  let df := setitem df "Item Price" total in
  let df := setconst df "Item Type" (VStr "service") in
  let df := setconst df "Reason for issuing Debit Note" (VStr "Others") in
  let df := setconst df "Account" (VStr "OD CHARGES") in
  let df := setconst df "Line Item Location Name" (VStr "HEAD OFFICE") in
  let df := setconst df "Supply Type" (VStr "Out of Scope") in
  let df := setconst df "CF.Bill Type" (VStr "Credit") in
  let df := setconst df "Invoice Date" (VStr today) in
  OK (setconst df "Invoice No." (VStr "")).

Definition invoice_number (self : t) (i : nat) : string :=
  invoice_prefix self ++ Py.zfill 6 (Py.str_of_int (Z.of_nat i + starting_number self)).

Definition generate_invoice_numbers (self : t) (df : DataFrame) : DataFrame :=
  setitem df "Invoice No."
    (map (fun i => VStr (invoice_number self i)) (seq 0 (length (rows df)))).

Definition rename_customer_column (df : DataFrame) : DataFrame :=
  rename df "Customer Number" "Customer ID".

Definition cols_to_keep : list string :=
  [ "Invoice Date"; "Invoice No."; "Invoice Status"; "Accounts Receivable";
    "Customer ID"; "Customer Name"; "Is Inclusive Tax"; "SubTotal"; "Total";
    "Balance"; "Notes"; "Invoice Type"; "Location Name"; "Item Desc";
    "Quantity"; "Item Total"; "Item Price"; "Sales person"; "Item Type";
    "Reason for issuing Debit Note"; "Account"; "Line Item Location Name";
    "Supply Type"; "CF.Bill Type" ].

Definition select_final_columns (df : DataFrame) : result DataFrame :=
  df_final ← getcols df cols_to_keep;
  let df_final := copy df_final in
  df_final ← sort_values df_final "Customer ID";
  OK (reset_index df_final).

Definition generate_debit_notes (self : t) (today : string) (df : DataFrame) : result DataFrame :=
  df ← group_by_customer df;
  df ← round_totals df;
  df ← add_debit_note_fields today df;
  let df := generate_invoice_numbers self df in
  let df := rename_customer_column df in
  select_final_columns df.

End DebitNoteGenerator.

(** ** Row-wise reading of the stages

    Every step after the row filter works cell by cell, so a stage maps one
    function over the rows.  The functions below are those row functions;
    the stage lemmas of the second part prove that the stages of the
    program compute them. *)

Module Rowwise.

Definition num1 (op : Q -> Q) (v : value) : value :=
  match v with
  | VNum q => num (op q)
  | VBool b => num (op (if b then 1%Q else 0%Q))
  | _ => VNaN
  end.

Definition num2 (op : Q -> Q -> Q) (a b : value) : value :=
  match a, b with
  | (VNum _ | VBool _), (VNum _ | VBool _) => num (op (numeric_of a) (numeric_of b))
  | _, _ => VNaN
  end.

(** The row filter of [filter_by_age]. *)
Definition exceeds (k : Z) (v : value) : bool :=
  match v with
  | VNum _ | VBool _ => Qgtb (numeric_of v) (inject_Z k)
  | _ => false
  end.

Definition clip_upper (k : Z) (q : Q) : Q := if Qgtb q (inject_Z k) then inject_Z k else q.

Section Interest.
Variable self : InterestCalculator.t.
Let thr := InterestCalculator.due_days_threshold self.
Let cap := InterestCalculator.max_working_days self.
Let rate := InterestCalculator.per_day_rate self.

Definition working_days_row (r : gmap string value) : gmap string value :=
  let r1 := <["Due days" := int thr]> r in
  let d := num1 (fun q => q - inject_Z thr)%Q (cell "Age" r1) in
  let r2 := <["interst working" := num1 (clip_upper cap) d]> r1 in
  <["Previous interst" := num2 Qminus d (cell "interst working" r2)]> r2.

Definition percentage_row (r : gmap string value) : gmap string value :=
  let r1 := <["per day interst%" := num rate]> r in
  <["working interst in %" :=
      num2 Qmult (cell "interst working" r1) (cell "per day interst%" r1)]> r1.

Definition amount_row (r : gmap string value) : gmap string value :=
  let a := num2 Qmult (cell "Balance Due" r)
             (num1 (fun q => q / 100)%Q (cell "working interst in %" r)) in
  let r1 := <["interest amount" := a]> r in
  <["interest amount" := num1 (round_decimals 4) (cell "interest amount" r1)]> r1.

Definition interest_row (r : gmap string value) : gmap string value :=
  project InterestCalculator.final_columns
    (amount_row (percentage_row (working_days_row r))).

Definition by_customer_name (r1 r2 : gmap string value) : bool :=
  value_leb (cell "Customer Name" r1) (cell "Customer Name" r2).

(** The rows [calculate_interest] keeps, in its output order. *)
Definition retained (df : DataFrame) : list (gmap string value) :=
  sort_by by_customer_name (List.filter (fun r => exceeds thr (cell "Age" r)) (rows df)).

End Interest.

(** The sum [sum_skipna] computes when no cell is text. *)
Definition total (s : Series) : Q :=
  fold_right (fun v t => if is_numeric v then (numeric_of v + t)%Q else t) 0%Q s.

Definition astype_int_cell (v : value) : value :=
  match v with
  | VNum _ | VBool _ =>
      int (Z.quot (Qnum (numeric_of v)) (Z.pos (Qden (numeric_of v))))
  | _ => VNaN
  end.

Definition indexed {A : Type} (l : list A) : list (nat * A) := zip (seq 0 (length l)) l.

Section Notes.
Variables (self : DebitNoteGenerator.t) (today : string) (df : DataFrame).

(** The interest amounts of the group with key [k], and their sum. *)
Definition group_total (k : list value) : Q :=
  total (map (cell "interest amount") (group_rows df DebitNoteGenerator.group_keys k)).

Definition group_row (k : list value) : gmap string value :=
  <["interest amount" := num (group_total k)]>
    (list_to_map (zip DebitNoteGenerator.group_keys k)).

Definition rename_row (old new : string) (r : gmap string value) : gmap string value :=
  <[new := cell old r]> (delete old r).

Definition rounded_row (r : gmap string value) : gmap string value :=
  <["Total" := astype_int_cell (num1 (round_decimals 0) (cell "Total" r))]> r.

Definition fields_row (r : gmap string value) : gmap string value :=
  let r := <["Description" := VStr "OD Charges Dec-2025"]> r in
  let r := <["Invoice Status" := VStr "Open"]> r in
  let r := <["Accounts Receivable" := VStr "Accounts Receivable"]> r in
  let r := <["Is Inclusive Tax" := VBool true]> r in
  let r := <["SubTotal" := cell "Total" r]> r in
  let r := <["Balance" := cell "Total" r]> r in
  let r := <["Notes" := VStr "OD Charges Dec-2025"]> r in
  let r := <["Invoice Type" := VStr "Debit Notes"]> r in
  let r := <["Location Name" := VStr "Head Office"]> r in
  let r := <["Item Desc" := VStr "OD Charges Dec-2025"]> r in
  let r := <["Quantity" := int 1]> r in
  let r := <["Item Total" := cell "Total" r]> r in
  let r := <["Item Price" := cell "Total" r]> r in
  let r := <["Item Type" := VStr "service"]> r in
  let r := <["Reason for issuing Debit Note" := VStr "Others"]> r in
  let r := <["Account" := VStr "OD CHARGES"]> r in
  let r := <["Line Item Location Name" := VStr "HEAD OFFICE"]> r in
  let r := <["Supply Type" := VStr "Out of Scope"]> r in
  let r := <["CF.Bill Type" := VStr "Credit"]> r in
  let r := <["Invoice Date" := VStr today]> r in
  <["Invoice No." := VStr ""]> r.

(** The debit note of the [i]-th group, whose key is [k]. *)
Definition debit_note (p : nat * list value) : gmap string value :=
  project DebitNoteGenerator.cols_to_keep
    (rename_row "Customer Number" "Customer ID"
       (<["Invoice No." := VStr (DebitNoteGenerator.invoice_number self p.1)]>
          (fields_row (rounded_row (rename_row "interest amount" "Total" (group_row p.2)))))).

Definition debit_notes : list (gmap string value) :=
  map debit_note (indexed (group_index df DebitNoteGenerator.group_keys)).

Definition by_customer_id (r1 r2 : gmap string value) : bool :=
  value_leb (cell "Customer ID" r1) (cell "Customer ID" r2).


End Notes.

(** What [generate_debit_notes] needs of its input: the grouping columns
    and the interest amounts are there, no interest amount is text, and the
    customer numbers can be ordered. *)
Definition generator_input (df : DataFrame) : bool :=
  forallb (has_column df) (DebitNoteGenerator.group_keys ++ ["interest amount"])
  && forallb (fun r => negb (is_str (cell "interest amount" r))) (rows df)
  && comparable (map (cell "Customer Number") (rows df)).

(** The columns [calculate_interest] reads from its input. *)
Definition calculator_columns : list string :=
  [ "Region"; "Area Name"; "Market"; "Customer Name"; "Customer Number"; "DATE";
    "Transaction#"; "Type"; "Status"; "Due Date"; "Amount"; "Balance Due"; "Age";
    "Sale Person" ].

Definition number_or_missing (v : value) : bool :=
  match v with VNum _ | VNaN => true | _ => false end.

(** A cleaned table as [clean_data] leaves it: the columns are there, amounts
    and ages are numbers or missing, customer names can be ordered. *)
Definition cleaned_table (df : DataFrame) : bool :=
  forallb (has_column df) calculator_columns
  && forallb (fun r => number_or_missing (cell "Age" r)
                       && number_or_missing (cell "Balance Due" r)) (rows df)
  && comparable (map (cell "Customer Name") (rows df)).

End Rowwise.
Import Rowwise.

(** ** Sample tables *)

Definition row_of (l : list (string * value)) : gmap string value := list_to_map l.

Definition sample_row (number name salesperson : string) (age balance : Q)
  : gmap string value :=
  row_of [ ("Region", VStr "North"); ("Area Name", VStr "Pune"); ("Market", VStr "Retail");
           ("Customer Name", VStr name); ("Customer Number", VStr number);
           ("DATE", VStr "2025-06-01"); ("Transaction#", VStr "INV-1"); ("Type", VStr "Invoice");
           ("Status", VStr "Overdue"); ("Due Date", VStr "2025-07-01");
           ("Amount", VNum balance); ("Balance Due", VNum balance); ("Age", VNum age);
           ("Sale Person", VStr salesperson) ].

(** A cleaned table: one customer served by two salespersons, a row whose
    age equals the default threshold and a row one day above it. *)
Definition sample_cleaned : DataFrame :=
  mkDF calculator_columns
    [ sample_row "C001" "Asha Traders" "Ravi" 200 10000;
      sample_row "C001" "Asha Traders" "Meena" 181 2500;
      sample_row "C002" "Bharat Stores" "Ravi" 150 4000;
      sample_row "C003" "Chitra Mills" "Meena" 151 1250 ].

Definition interest_record (number name salesperson : string) (amount : Q)
  : gmap string value :=
  row_of [ ("Customer Number", VStr number); ("Customer Name", VStr name);
           ("Area Name", VStr "Pune"); ("Region", VStr "North");
           ("Sales person", VStr salesperson); ("interest amount", VNum amount) ].

(** An interest table under the column names the generator reads. *)
Definition sample_interest : DataFrame :=
  mkDF (DebitNoteGenerator.group_keys ++ ["interest amount"])
    [ interest_record "C003" "Chitra Mills" "Meena" (3 # 4);
      interest_record "C001" "Asha Traders" "Ravi" 186;
      interest_record "C001" "Asha Traders" "Meena" (373 # 2);
      interest_record "C001" "Asha Traders" "Ravi" (1 # 2) ].


(** A configuration the specification calls invalid; for the starting number the
    range is the one of the input widget of src/app.py, 1 to 999999. *)
Definition invalid_configuration (rate : Q) (max_working_days starting_number : Z) : bool :=
  negb (Qle_bool 0 rate) || (max_working_days <=? 0)%Z
  || (starting_number <? 1)%Z || (999999 <? starting_number)%Z.

(** A table of one column. *)
Definition column_table (c : string) (cells : list value) : DataFrame :=
  mkDF [c] (map (fun v => row_of [(c, v)]) cells).

(** A raw age column next to the transaction type. *)
Definition sample_ages : DataFrame :=
  mkDF ["Type"; "Age"]
    [ row_of [("Type", VStr "Invoice"); ("Age", VStr "200 Days")];
      row_of [("Type", VStr "Customer Opening Balance"); ("Age", VStr "12 Days")];
      row_of [("Type", VStr "Customer Opening Balance"); ("Age", VStr "unknown")];
      row_of [("Type", VStr "Invoice"); ("Age", VStr " 45  Days")] ].


Definition age_text (t : string) : string := Py.strip (Py.replace " Days" "" t).

Definition is_opening_balance (v : value) : bool :=
  match v with
  | VStr u => String.eqb u "Customer Opening Balance"
  | _ => false
  end.

Definition clean_age_row (opening_balance_age : Z) (r : gmap string value)
  : gmap string value :=
  let r1 := <["Age" := DataProcessor.astype_str_then age_text (cell "Age" r)]> r in
  let r2 := <["Age" := DataProcessor.to_numeric (cell "Age" r1)]> r1 in
  if is_opening_balance (cell "Type" r2) then <["Age" := int opening_balance_age]> r2 else r2.




(** ** Row-wise reading of the cleaner *)

Definition is_overdue (r : gmap string value) : bool :=
  match cell "Status" r with
  | VStr u => String.eqb u "Overdue"
  | _ => false
  end.

Definition currency_text (t : string) : string :=
  Py.strip (Py.replace "," "" (Py.replace "â‚¹" "" t)).

Definition clean_currency_row (c : string) (fill : Q) (r : gmap string value)
  : gmap string value :=
  let r1 := <[c := DataProcessor.astype_str_then currency_text (cell c r)]> r in
  <[c := DataProcessor.fillna fill (DataProcessor.to_numeric (cell c r1))]> r1.

Definition drop_row (cols : list string) (r : gmap string value) : gmap string value :=
  fold_right (fun c m => delete c m) r cols.

(** The columns [remove_duplicate_columns] drops from a table. *)
Definition dropped_columns (df : DataFrame) : list string :=
  List.filter (fun col => has_column df col) ["Sale person"].

Definition clean_row (dropped : list string) (opening_balance_age : Z)
    (r : gmap string value) : gmap string value :=
  clean_age_row opening_balance_age
    (clean_currency_row "Amount" 0
       (clean_currency_row "Balance Due" 0 (drop_row dropped r))).

(** A raw export: text amounts and ages, one paid row, one opening balance. *)
Definition raw_row (number name salesperson type status balance age : string)
  : gmap string value :=
  row_of [ ("Region", VStr "North"); ("Area Name", VStr "Pune"); ("Market", VStr "Retail");
           ("Customer Name", VStr name); ("Customer Number", VStr number);
           ("DATE", VStr "2025-06-01"); ("Transaction#", VStr "INV-1"); ("Type", VStr type);
           ("Status", VStr status); ("Due Date", VStr "2025-07-01");
           ("Amount", VStr balance); ("Balance Due", VStr balance); ("Age", VStr age);
           ("Sale Person", VStr salesperson); ("Sale person", VStr salesperson) ].

Definition sample_raw : DataFrame :=
  mkDF (calculator_columns ++ ["Sale person"])
    [ raw_row "C001" "Asha Traders" "Ravi" "Invoice" "Overdue" "10,000.00" "200 Days";
      raw_row "C001" "Asha Traders" "Meena" "Invoice" "Paid" "2,500.00" "181 Days";
      raw_row "C002" "Bharat Stores" "Ravi" "Customer Opening Balance" "Overdue" "4,000" "12 Days";
      raw_row "C003" "Chitra Mills" "Meena" "Invoice" "overdue" "1,250.50" "151 Days";
      raw_row "C004" "Deepa Agencies" "Ravi" "Invoice" "Overdue" "n/a" "soon" ].



(** ** src/app.py: the processing step of [main] *)

Module App.

(** The values of the sidebar inputs. *)
Record settings : Type := mk {
  per_day_rate : Q;
  due_days_threshold : Z;
  max_working_days : Z;
  invoice_prefix : string;
  starting_number : Z
}.

(** What the "Process Data" button runs on the uploaded table; the two
    tables of the result are the ones kept in the session state.  An
    exception is caught by [main] and shown as an error. *)
Definition process (s : settings) (today : string) (df_raw : DataFrame)
  : result (DataFrame * DataFrame) :=
  let interest_calculator :=
    InterestCalculator.init (per_day_rate s) (due_days_threshold s) (max_working_days s) in
  let debit_note_gen := DebitNoteGenerator.init (invoice_prefix s) (starting_number s) in
  df_filtered ← DataProcessor.filter_overdue df_raw;
  df_cleaned ← DataProcessor.clean_data df_filtered DataProcessor.default_opening_balance_age;
  df_with_interest ← InterestCalculator.calculate_interest interest_calculator df_cleaned;
  df_debit_notes ← DebitNoteGenerator.generate_debit_notes debit_note_gen today df_with_interest;
  OK (df_with_interest, df_debit_notes).

Definition default_settings : settings :=
  {| per_day_rate := 6 # 100; due_days_threshold := 150; max_working_days := 31;
     invoice_prefix := "CDN/SA-"; starting_number := 311 |}.

End App.

(** * Properties *)

(** ** Lists, results and tables *)

Section Generic.
Context {A B : Type}.

Lemma traverse_ok (f : A -> result B) (g : A -> B) (l : list A) :
  (forall x, In x l -> f x = OK (g x)) -> traverse f l = OK (map g l).
Proof.
  induction l as [|a l IH]; intros H; simpl; [reflexivity|].
  rewrite (H a (or_introl eq_refl)). simpl.
  rewrite IH by (intros x Hx; apply H; right; exact Hx).
  reflexivity.
Qed.

Lemma select_map_filter (p : A -> bool) (l : list A) :
  select (map p l) l = List.filter p l.
Proof.
  induction l as [|a l IH]; simpl; [reflexivity|].
  destruct (p a); rewrite IH; reflexivity.
Qed.

Lemma zip_map_map {C : Type} (f : A -> B) (g : A -> C) (l : list A) :
  zip (map f l) (map g l) = map (fun x => (f x, g x)) l.
Proof. induction l as [|a l IH]; simpl; [reflexivity|]. rewrite IH. reflexivity. Qed.

Lemma imap_as_map (f : A -> B) (l : list A) : imap (fun _ x => f x) l = map f l.
Proof. induction l as [|a l IH]; simpl; [reflexivity|]. f_equal. exact IH. Qed.

End Generic.

Lemma bind_ok {A B : Type} (a : A) (k : A -> result B) : (OK a ≫= k) = k a.
Proof. reflexivity. Qed.

Lemma map_is_fmap {A B : Type} (f : A -> B) (l : list A) : map f l = f <$> l.
Proof. reflexivity. Qed.

Lemma cell_insert_eq (c : string) (v : value) (r : gmap string value) :
  cell c (<[c := v]> r) = v.
Proof. unfold cell. rewrite lookup_insert_eq. reflexivity. Qed.

Lemma cell_insert_ne (c d : string) (v : value) (r : gmap string value) :
  d <> c -> cell c (<[d := v]> r) = cell c r.
Proof. intros H. unfold cell. rewrite lookup_insert_ne by exact H. reflexivity. Qed.

Lemma cell_delete_ne (c d : string) (r : gmap string value) :
  d <> c -> cell c (delete d r) = cell c r.
Proof. intros H. unfold cell. rewrite lookup_delete_ne by exact H. reflexivity. Qed.

Lemma cell_project (cols : list string) (c : string) (r : gmap string value) :
  In c cols -> cell c (project cols r) = cell c r.
Proof.
  induction cols as [|d cols IH]; intros H; simpl; [destruct H|].
  destruct (decide (d = c)) as [->|Hne].
  - apply cell_insert_eq.
  - rewrite cell_insert_ne by exact Hne. apply IH. destruct H; [contradiction|assumption].
Qed.

Lemma has_column_true (df : DataFrame) (c : string) :
  has_column df c = true <-> In c (columns df).
Proof.
  unfold has_column. rewrite bool_decide_eq_true. apply list_elem_of_In.
Qed.

Lemma getitem_ok (df : DataFrame) (c : string) :
  In c (columns df) -> getitem df c = OK (map (cell c) (rows df)).
Proof. intros H. unfold getitem. apply has_column_true in H. rewrite H. reflexivity. Qed.

Lemma getitem_missing (df : DataFrame) (c : string) :
  ~ In c (columns df) -> getitem df c = Err (KeyError c).
Proof.
  intros H. unfold getitem. destruct (has_column df c) eqn:E; [|reflexivity].
  apply has_column_true in E. contradiction.
Qed.

Lemma setitem_map (df : DataFrame) (c : string) (f : gmap string value -> value) :
  setitem df c (map f (rows df))
  = {| columns := add_column c (columns df);
       rows := map (fun r => <[c := f r]> r) (rows df) |}.
Proof.
  unfold setitem. f_equal. apply list_eq. intros i.
  rewrite list_lookup_imap, !map_is_fmap, !list_lookup_fmap.
  destruct (rows df !! i) as [r|] eqn:E; reflexivity.
Qed.

Lemma in_add_column (c d : string) (cols : list string) :
  In d (add_column c cols) <-> d = c \/ In d cols.
Proof.
  unfold add_column. destruct (bool_decide (c ∈ cols)) eqn:E.
  - apply bool_decide_eq_true, list_elem_of_In in E. split; [tauto|]. intros [->|H]; assumption.
  - rewrite in_app_iff. simpl. split; [intros [H|[H|[]]]; auto|intros [H|H]; auto].
Qed.

Lemma missing_column_none (df : DataFrame) (cols : list string) :
  (forall c, In c cols -> In c (columns df)) -> missing_column df cols = None.
Proof.
  unfold missing_column. induction cols as [|c cols IH]; intros H; simpl; [reflexivity|].
  rewrite (proj2 (has_column_true df c)) by (apply H; left; reflexivity).
  simpl. apply IH. intros d Hd. apply H. right. exact Hd.
Qed.

Lemma getcols_ok (df : DataFrame) (cols : list string) :
  (forall c, In c cols -> In c (columns df)) ->
  getcols df cols = OK {| columns := cols; rows := map (project cols) (rows df) |}.
Proof. intros H. unfold getcols. rewrite missing_column_none by exact H. reflexivity. Qed.

(** ** Views: a table whose rows are [map h l] *)

Section Views.
Context {X : Type}.
Variables (l : list X) (h : X -> gmap string value) (cols : list string).

Lemma getitem_view (c : string) :
  In c cols -> getitem (mkDF cols (map h l)) c = OK (map (fun x => cell c (h x)) l).
Proof. intros H. rewrite getitem_ok by exact H. simpl. rewrite map_map. reflexivity. Qed.

Lemma setitem_view (c : string) (g : X -> value) :
  setitem (mkDF cols (map h l)) c (map g l)
  = mkDF (add_column c cols) (map (fun x => <[c := g x]> (h x)) l).
Proof.
  unfold setitem. simpl. f_equal. apply list_eq. intros i.
  rewrite list_lookup_imap, !map_is_fmap, !list_lookup_fmap.
  destruct (l !! i); reflexivity.
Qed.

Lemma setconst_view (c : string) (v : value) :
  setconst (mkDF cols (map h l)) c v
  = mkDF (add_column c cols) (map (fun x => <[c := v]> (h x)) l).
Proof. unfold setconst. simpl. rewrite map_map. reflexivity. Qed.

Lemma traverse_map {B C : Type} (f : B -> result C) (g : X -> B) :
  traverse f (map g l) = traverse (fun x => f (g x)) l.
Proof. induction l as [|a l' IH]; simpl; [reflexivity|]. rewrite IH. reflexivity. Qed.

End Views.

Lemma lift1_ok (op : Q -> Q) (v : value) : is_str v = false -> lift1 op v = OK (num1 op v).
Proof. destruct v as [s|q|b|]; intros H; try discriminate; reflexivity. Qed.

Lemma lift2_ok (op : Q -> Q -> Q) (a b : value) :
  is_str a = false -> is_str b = false -> lift2 op a b = OK (num2 op a b).
Proof.
  destruct a as [s|q|[]|]; intros Ha; try discriminate;
    destruct b as [s'|q'|[]|]; intros Hb; try discriminate; reflexivity.
Qed.

Lemma num1_not_str (op : Q -> Q) (v : value) : is_str (num1 op v) = false.
Proof. destruct v as [s|q|b|]; reflexivity. Qed.

Lemma num2_not_str (op : Q -> Q -> Q) (a b : value) : is_str (num2 op a b) = false.
Proof. destruct a as [s|q|[]|]; destruct b as [s'|q'|[]|]; reflexivity. Qed.

Lemma series_lift1_view {X : Type} (op : Q -> Q) (g : X -> value) (l : list X) :
  (forall x, In x l -> is_str (g x) = false) ->
  traverse (lift1 op) (map g l) = OK (map (fun x => num1 op (g x)) l).
Proof.
  intros H. rewrite traverse_map. apply traverse_ok.
  intros x Hx. apply lift1_ok, H, Hx.
Qed.

Lemma series_lift2_view {X : Type} (op : Q -> Q -> Q) (g1 g2 : X -> value) (l : list X) :
  (forall x, In x l -> is_str (g1 x) = false) ->
  (forall x, In x l -> is_str (g2 x) = false) ->
  traverse (fun p => lift2 op p.1 p.2) (zip (map g1 l) (map g2 l))
  = OK (map (fun x => num2 op (g1 x) (g2 x)) l).
Proof.
  intros H1 H2. rewrite zip_map_map, traverse_map. apply traverse_ok.
  intros x Hx. simpl. apply lift2_ok; [apply H1|apply H2]; exact Hx.
Qed.

Ltac cell_simpl :=
  repeat first [ rewrite cell_insert_eq
               | rewrite cell_insert_ne by discriminate
               | rewrite cell_delete_ne by discriminate ].

Ltac in_cols :=
  repeat (apply in_add_column; first [ left; reflexivity | right ]); try assumption.

(** ** The stages of the interest calculator, row by row *)

Section InterestStages.
Variable self : InterestCalculator.t.

Lemma filter_by_age_rows (df : DataFrame) :
  In "Age" (columns df) ->
  (forall r, In r (rows df) -> is_str (cell "Age" r) = false) ->
  InterestCalculator.filter_by_age self df
  = OK (mkDF (columns df)
          (List.filter
             (fun r => exceeds (InterestCalculator.due_days_threshold self) (cell "Age" r))
             (rows df))).
Proof.
  intros Hc Hs. unfold InterestCalculator.filter_by_age.
  rewrite getitem_ok by exact Hc. simpl. unfold series_gt.
  rewrite traverse_map.
  rewrite (traverse_ok _
    (fun r => exceeds (InterestCalculator.due_days_threshold self) (cell "Age" r))).
  - simpl. unfold copy, getmask. rewrite select_map_filter. reflexivity.
  - intros r Hr. specialize (Hs r Hr).
    destruct (cell "Age" r) as [s|q|[]|]; try discriminate; reflexivity.
Qed.

Section StageViews.
Context {X : Type}.
Variables (l : list X) (h : X -> gmap string value) (cols : list string).

Lemma calculate_working_days_view :
  In "Age" cols ->
  (forall x, In x l -> is_str (cell "Age" (h x)) = false) ->
  InterestCalculator.calculate_working_days self (mkDF cols (map h l))
  = OK (mkDF (add_column "Previous interst"
                (add_column "interst working" (add_column "Due days" cols)))
          (map (fun x => working_days_row self (h x)) l)).
Proof.
  intros Hc Hs. unfold InterestCalculator.calculate_working_days.
  rewrite setconst_view.
  rewrite getitem_view by in_cols. simpl.
  unfold series_sub_scalar. rewrite series_lift1_view.
  2:{ intros r Hr. cell_simpl. apply Hs, Hr. }
  simpl. unfold series_clip_upper. rewrite series_lift1_view.
  2:{ intros r Hr. apply num1_not_str. }
  simpl. rewrite setitem_view. rewrite getitem_view by in_cols. simpl.
  unfold series_sub. rewrite series_lift2_view.
  2:{ intros r Hr. apply num1_not_str. }
  2:{ intros r Hr. cell_simpl. apply num1_not_str. }
  simpl. rewrite setitem_view. reflexivity.
Qed.

Lemma calculate_interest_percentage_view :
  In "interst working" cols ->
  (forall x, In x l -> is_str (cell "interst working" (h x)) = false) ->
  InterestCalculator.calculate_interest_percentage self (mkDF cols (map h l))
  = OK (mkDF (add_column "working interst in %" (add_column "per day interst%" cols))
          (map (fun x => percentage_row self (h x)) l)).
Proof.
  intros Hc Hs. unfold InterestCalculator.calculate_interest_percentage.
  rewrite setconst_view.
  rewrite getitem_view by in_cols. simpl.
  rewrite getitem_view by in_cols. simpl.
  unfold series_mul. rewrite series_lift2_view.
  2:{ intros r Hr. cell_simpl. apply Hs, Hr. }
  2:{ intros r Hr. cell_simpl. reflexivity. }
  simpl. rewrite setitem_view. reflexivity.
Qed.

Lemma calculate_interest_amount_view :
  In "Balance Due" cols -> In "working interst in %" cols ->
  (forall x, In x l -> is_str (cell "Balance Due" (h x)) = false) ->
  (forall x, In x l -> is_str (cell "working interst in %" (h x)) = false) ->
  InterestCalculator.calculate_interest_amount self (mkDF cols (map h l))
  = OK (mkDF (add_column "interest amount" (add_column "interest amount" cols))
          (map (fun x => amount_row (h x)) l)).
Proof.
  intros Hb Hp Hsb Hsp. unfold InterestCalculator.calculate_interest_amount.
  rewrite getitem_view by in_cols. simpl.
  rewrite getitem_view by in_cols. simpl.
  unfold series_div_scalar. rewrite series_lift1_view by exact Hsp. simpl.
  unfold series_mul. rewrite series_lift2_view.
  2:{ exact Hsb. }
  2:{ intros r Hr. apply num1_not_str. }
  simpl. rewrite setitem_view. rewrite getitem_view by in_cols. simpl.
  unfold series_round. rewrite series_lift1_view.
  2:{ intros r Hr. cell_simpl. apply num2_not_str. }
  simpl. rewrite setitem_view. reflexivity.
Qed.

End StageViews.

End InterestStages.

(** ** Sorting *)

Section Sorting.
Context {A : Type}.
Variable leb : A -> A -> bool.

Lemma in_insert_by (a x : A) (l : list A) : In x (insert_by leb a l) <-> x = a \/ In x l.
Proof.
  induction l as [|y l IH]; simpl.
  - split; [intros [H|[]]; auto|intros [H|[]]; auto].
  - destruct (leb a y); simpl; [split; [intros [H|H]; auto|intros [H|H]; auto]|].
    rewrite IH. tauto.
Qed.

Lemma in_sort_by (x : A) (l : list A) : In x (sort_by leb l) <-> In x l.
Proof.
  induction l as [|a l IH]; simpl; [tauto|].
  rewrite in_insert_by, IH. split; intros [H|H]; auto.
Qed.

Lemma length_insert_by (a : A) (l : list A) : length (insert_by leb a l) = S (length l).
Proof.
  induction l as [|y l IH]; simpl; [reflexivity|].
  destruct (leb a y); simpl; [reflexivity|]. rewrite IH. reflexivity.
Qed.

Lemma length_sort_by (l : list A) : length (sort_by leb l) = length l.
Proof.
  induction l as [|a l IH]; simpl; [reflexivity|].
  rewrite length_insert_by, IH. reflexivity.
Qed.

Lemma insert_by_sorted (a : A) (l : list A) :
  (forall x y, leb x y = false -> leb y x = true) ->
  Sorted (lebP leb) l -> Sorted (lebP leb) (insert_by leb a l).
Proof.
  intros Htot Hs. induction Hs as [|y l Hs IH Hd]; simpl.
  - repeat constructor.
  - destruct (leb a y) eqn:E.
    + constructor; [constructor; assumption|constructor; exact E].
    + constructor; [exact IH|].
      destruct l as [|z l]; simpl.
      * constructor. apply Htot, E.
      * destruct (leb a z); constructor; [apply Htot, E|].
        inversion Hd; subst. assumption.
Qed.

Lemma sort_by_sorted (l : list A) :
  (forall x y, leb x y = false -> leb y x = true) -> Sorted (lebP leb) (sort_by leb l).
Proof.
  intros Htot. induction l as [|a l IH]; simpl; [constructor|].
  apply insert_by_sorted; assumption.
Qed.

(** A stable sort leaves a sorted list as it is. *)
Lemma sort_by_id (l : list A) : Sorted (lebP leb) l -> sort_by leb l = l.
Proof.
  induction 1 as [|a l Hs IH Hd]; simpl; [reflexivity|].
  rewrite IH. destruct Hd as [|b l Hab]; simpl; [reflexivity|].
  unfold lebP in Hab. rewrite Hab. reflexivity.
Qed.

End Sorting.

Lemma existsb_incl {A : Type} (p : A -> bool) (l l' : list A) :
  (forall x, In x l' -> In x l) -> existsb p l' = true -> existsb p l = true.
Proof.
  intros H. rewrite !existsb_exists. intros (x & Hx & Hp). exists x. auto.
Qed.

Lemma comparable_incl (l l' : Series) :
  (forall v, In v l' -> In v l) -> comparable l = true -> comparable l' = true.
Proof.
  intros H. unfold comparable. rewrite !negb_true_iff, !andb_false_iff.
  intros [E|E]; [left|right];
    (destruct (existsb _ l') eqn:E'; [|reflexivity];
     apply (existsb_incl _ l) in E'; [congruence|exact H]).
Qed.

Lemma sort_values_ok (df : DataFrame) (c : string) :
  In c (columns df) ->
  comparable (map (cell c) (rows df)) = true ->
  sort_values df c
  = OK (mkDF (columns df)
          (sort_by (fun r1 r2 => value_leb (cell c r1) (cell c r2)) (rows df))).
Proof.
  intros Hc Hcmp. unfold sort_values. rewrite getitem_ok by exact Hc. simpl.
  rewrite Hcmp. reflexivity.
Qed.

(** ** [calculate_interest] as a whole *)

Lemma calculate_interest_rows (self : InterestCalculator.t) (df : DataFrame) :
  (forall c, In c calculator_columns -> In c (columns df)) ->
  (forall r, In r (rows df) -> is_str (cell "Age" r) = false) ->
  (forall r, In r (retained self df) -> is_str (cell "Balance Due" r) = false) ->
  comparable (map (cell "Customer Name") (retained self df)) = true ->
  InterestCalculator.calculate_interest self df
  = OK (mkDF InterestCalculator.final_columns (map (interest_row self) (retained self df))).
Proof.
  intros Hcols Hage Hbal Hcmp.
  assert (Hin : forall r, In r (retained self df) -> In r (rows df)).
  { intros r Hr. unfold retained in Hr. apply in_sort_by, filter_In in Hr. tauto. }
  unfold InterestCalculator.calculate_interest.
  rewrite filter_by_age_rows; [|apply Hcols; simpl; tauto|exact Hage]. rewrite bind_ok.
  rewrite sort_values_ok; [|apply Hcols; simpl; tauto|].
  2:{ cbn [rows]. revert Hcmp. apply comparable_incl. intros v Hv.
      apply in_map_iff in Hv as (r & <- & Hr). apply in_map.
      unfold retained. apply in_sort_by. exact Hr. }
  rewrite bind_ok. cbn [rows columns].
  unfold reset_index. fold (by_customer_name). fold (retained self df).
  rewrite <- (map_id (retained self df)) at 1.
  rewrite calculate_working_days_view;
    [|apply Hcols; simpl; tauto|intros r Hr; apply Hage, Hin, Hr]. rewrite bind_ok.
  rewrite calculate_interest_percentage_view;
    [|in_cols|intros r Hr; unfold working_days_row; cell_simpl; apply num1_not_str].
  rewrite bind_ok.
  rewrite calculate_interest_amount_view.
  - rewrite bind_ok. unfold InterestCalculator.select_final_columns. rewrite getcols_ok.
    + cbn [rows]. rewrite map_map. reflexivity.
    + cbn [columns]. intros c Hc. simpl in Hc.
      repeat (destruct Hc as [<-|Hc]; [in_cols; apply Hcols; simpl; tauto|]).
      destruct Hc.
  - in_cols. apply Hcols. simpl. tauto.
  - in_cols.
  - intros r Hr. unfold percentage_row, working_days_row. cell_simpl. apply Hbal, Hr.
  - intros r Hr. unfold percentage_row. cell_simpl. apply num2_not_str.
Qed.

Lemma insert_by_perm {A : Type} (leb : A -> A -> bool) (a : A) (l : list A) :
  Permutation (insert_by leb a l) (a :: l).
Proof.
  induction l as [|y l IH]; simpl; [reflexivity|].
  destruct (leb a y); [reflexivity|].
  rewrite IH. apply perm_swap.
Qed.

Lemma sort_by_perm {A : Type} (leb : A -> A -> bool) (l : list A) :
  Permutation (sort_by leb l) l.
Proof.
  induction l as [|a l IH]; simpl; [reflexivity|].
  rewrite insert_by_perm, IH. reflexivity.
Qed.

Lemma Forall2_map_r {A B : Type} (R : A -> B -> Prop) (f : A -> B) (l : list A) :
  (forall x, In x l -> R x (f x)) -> Forall2 R l (map f l).
Proof.
  induction l as [|a l IH]; intros H; simpl; constructor.
  - apply H. left. reflexivity.
  - apply IH. intros x Hx. apply H. right. exact Hx.
Qed.

Lemma cleaned_table_spec (df : DataFrame) :
  cleaned_table df = true ->
  (forall c, In c calculator_columns -> In c (columns df))
  /\ (forall r, In r (rows df) ->
        number_or_missing (cell "Age" r) = true
        /\ number_or_missing (cell "Balance Due" r) = true)
  /\ comparable (map (cell "Customer Name") (rows df)) = true.
Proof.
  unfold cleaned_table. rewrite !andb_true_iff, !forallb_forall.
  intros [[Hc Hr] Hs]. repeat split.
  - intros c Hin. apply has_column_true, Hc, Hin.
  - apply Hr in H. apply andb_true_iff in H. tauto.
  - apply Hr in H. apply andb_true_iff in H. tauto.
  - exact Hs.
Qed.

Lemma number_not_str (v : value) : number_or_missing v = true -> is_str v = false.
Proof. destruct v; intros H; try discriminate; reflexivity. Qed.

Lemma retained_spec (self : InterestCalculator.t) (df : DataFrame) (r : gmap string value) :
  In r (retained self df) <->
  In r (rows df) /\ exceeds (InterestCalculator.due_days_threshold self) (cell "Age" r) = true.
Proof. unfold retained. rewrite in_sort_by, filter_In. reflexivity. Qed.

Lemma cleaned_table_runs (self : InterestCalculator.t) (df : DataFrame) :
  cleaned_table df = true ->
  InterestCalculator.calculate_interest self df
  = OK (mkDF InterestCalculator.final_columns (map (interest_row self) (retained self df))).
Proof.
  intros H. apply cleaned_table_spec in H as (Hc & Hr & Hs).
  apply calculate_interest_rows; try assumption.
  - intros r Hin. apply number_not_str, (Hr r Hin).
  - intros r Hin. apply retained_spec in Hin as [Hin _]. apply number_not_str, (Hr r Hin).
  - revert Hs. apply comparable_incl. intros v Hv.
    apply in_map_iff in Hv as (r & <- & Hin). apply in_map.
    apply retained_spec in Hin. tauto.
Qed.

Lemma Qgtb_true (p q : Q) : Qgtb p q = true <-> (q < p)%Q.
Proof.
  unfold Qgtb. rewrite negb_true_iff. split; intros H.
  - apply Qnot_le_lt. intros Hle. apply Qle_bool_iff in Hle. congruence.
  - destruct (Qle_bool p q) eqn:E; [|reflexivity].
    apply Qle_bool_iff in E. lra.
Qed.

Lemma exceeds_num (k : Z) (a : Q) : exceeds k (VNum a) = true <-> (inject_Z k < a)%Q.
Proof. simpl. apply Qgtb_true. Qed.

Lemma clip_upper_min (k : Z) (q : Q) : (clip_upper k q == Qmin q (inject_Z k))%Q.
Proof.
  unfold clip_upper. destruct (Qgtb q (inject_Z k)) eqn:E.
  - apply Qgtb_true in E. symmetry. apply Q.min_r. lra.
  - symmetry. apply Q.min_l. destruct (Qlt_le_dec (inject_Z k) q) as [H|H]; [|exact H].
    apply Qgtb_true in H. congruence.
Qed.


#[global] Instance Qmin_proper : Proper (Qeq ==> Qeq ==> Qeq) Qmin.
Proof.
  intros a b Hab c d Hcd.
  destruct (Q.min_spec a c) as [[H1 ->]|[H1 ->]];
    destruct (Q.min_spec b d) as [[H2 ->]|[H2 ->]]; lra.
Qed.


(** ** Rounding *)

Lemma rint_proper (p q : Q) : (p == q)%Q -> rint p = rint q.
Proof.
  intros H. unfold rint. rewrite (Qfloor_comp p q H).
  assert (E : ((p - inject_Z (Qfloor q) ?= 1 # 2) = (q - inject_Z (Qfloor q) ?= 1 # 2))%Q).
  { apply Qcompare_comp; [rewrite H|]; reflexivity. }
  rewrite E. reflexivity.
Qed.


Lemma rint_inject_Z (z : Z) : rint (inject_Z z) = z.
Proof.
  unfold rint. rewrite Qfloor_Z.
  assert (E : ((inject_Z z - inject_Z z ?= 1 # 2) = Lt)%Q).
  { rewrite <- Qlt_alt. lra. }
  rewrite E. reflexivity.
Qed.

Lemma round_decimals_proper (d : nat) (p q : Q) :
  (p == q)%Q -> (round_decimals d p == round_decimals d q)%Q.
Proof.
  intros H. unfold round_decimals.
  rewrite (rint_proper (p * inject_Z (10 ^ Z.of_nat d)) (q * inject_Z (10 ^ Z.of_nat d)))
    by (rewrite H; reflexivity).
  reflexivity.
Qed.



(** ** The stages of the debit-note generator *)

Lemma sum_skipna_total (s : Series) :
  (forall v, In v s -> is_str v = false) -> sum_skipna s = OK (total s).
Proof.
  induction s as [|v s IH]; intros H; simpl; [reflexivity|].
  rewrite IH by (intros x Hx; apply H; right; exact Hx).
  pose proof (H v (or_introl eq_refl)) as Hv.
  destruct v as [t|q|[]|]; try discriminate; reflexivity.
Qed.

Lemma rename_view {X : Type} (l : list X) (h : X -> gmap string value) (cols : list string)
    (old new : string) :
  In old cols ->
  rename (mkDF cols (map h l)) old new
  = mkDF (map (fun c => if String.eqb c old then new else c) cols)
      (map (fun x => rename_row old new (h x)) l).
Proof.
  intros H. unfold rename. rewrite (proj2 (has_column_true _ _)) by exact H.
  simpl. rewrite map_map. reflexivity.
Qed.

Lemma group_by_customer_rows (df : DataFrame) :
  (forall c, In c (DebitNoteGenerator.group_keys ++ ["interest amount"]) -> In c (columns df)) ->
  (forall r, In r (rows df) -> is_str (cell "interest amount" r) = false) ->
  DebitNoteGenerator.group_by_customer df
  = OK (mkDF (DebitNoteGenerator.group_keys ++ ["Total"])
          (map (fun k => rename_row "interest amount" "Total" (group_row df k))
             (group_index df DebitNoteGenerator.group_keys))).
Proof.
  intros Hc Hs. unfold DebitNoteGenerator.group_by_customer, groupby_sum.
  rewrite missing_column_none by exact Hc.
  rewrite (traverse_ok _ (group_row df)).
  - simpl. rewrite rename_view by (simpl; tauto). reflexivity.
  - intros k _. rewrite sum_skipna_total; [reflexivity|].
    intros v Hv. apply in_map_iff in Hv as (r & <- & Hr).
    apply Hs. unfold group_rows, keyed_rows in Hr.
    apply filter_In in Hr as [Hr _]. apply filter_In in Hr as [Hr _]. exact Hr.
Qed.

Section NoteStageViews.
Context {X : Type}.
Variables (l : list X) (h : X -> gmap string value) (cols : list string).

Lemma round_totals_view :
  In "Total" cols ->
  (forall x, In x l -> is_numeric (cell "Total" (h x)) = true) ->
  DebitNoteGenerator.round_totals (mkDF cols (map h l))
  = OK (mkDF (add_column "Total" cols) (map (fun x => rounded_row (h x)) l)).
Proof.
  intros Hc Hn. unfold DebitNoteGenerator.round_totals.
  rewrite getitem_view by exact Hc. simpl.
  unfold series_round. rewrite series_lift1_view.
  2:{ intros x Hx. specialize (Hn x Hx). destruct (cell "Total" (h x)); try discriminate; reflexivity. }
  simpl. unfold series_astype_int. rewrite traverse_map.
  rewrite (traverse_ok _ (fun x => astype_int_cell (num1 (round_decimals 0) (cell "Total" (h x))))).
  - simpl. rewrite setitem_view. reflexivity.
  - intros x Hx. specialize (Hn x Hx).
    destruct (cell "Total" (h x)) as [s|q|[]|]; try discriminate; reflexivity.
Qed.

Ltac step :=
  first
  [ match goal with
    | |- context [setconst (mkDF ?c (map ?g l)) ?n ?v] =>
        rewrite (setconst_view l g c n v);
        let g' := fresh "g" in
        set (g' := fun x => <[n := v]> (g x))
    end
  | match goal with
    | |- context [getitem (mkDF ?c (map ?g l)) ?n] =>
        rewrite (getitem_view l g c n) by in_cols; rewrite bind_ok
    end
  | match goal with
    | |- context [setitem (mkDF ?c (map ?g l)) ?n (map ?f l)] =>
        rewrite (setitem_view l g c n f);
        let g' := fresh "g" in
        set (g' := fun x => <[n := f x]> (g x))
    end ].

Lemma add_debit_note_fields_view (today : string) :
  In "Total" cols ->
  exists cols',
    DebitNoteGenerator.add_debit_note_fields today (mkDF cols (map h l))
    = OK (mkDF cols' (map (fun x => fields_row today (h x)) l))
    /\ (forall c, In c cols -> In c cols')
    /\ (forall c, In c DebitNoteGenerator.cols_to_keep ->
          c <> "Customer ID" -> c <> "Customer Name" -> c <> "Sales person" -> c <> "Total" ->
          In c cols').
Proof.
  intros Hc. unfold DebitNoteGenerator.add_debit_note_fields. cbv zeta.
  repeat step.
  eexists. split; [reflexivity|]. split.
  - intros c H. in_cols.
  - intros c H N1 N2 N3 N4. simpl in H.
    repeat (destruct H as [<-|H];
      [first [ exfalso; apply N1; reflexivity | exfalso; apply N2; reflexivity
             | exfalso; apply N3; reflexivity | exfalso; apply N4; reflexivity
             | in_cols ]|]).
    destruct H.
Qed.

End NoteStageViews.

Lemma setitem_indexed {X : Type} (l : list X) (h : X -> gmap string value)
    (cols : list string) (c : string) (g : nat -> value) :
  setitem (mkDF cols (map h l)) c (map g (seq 0 (length (map h l))))
  = mkDF (add_column c cols) (map (fun p => <[c := g p.1]> (h p.2)) (indexed l)).
Proof.
  unfold setitem, indexed. simpl. f_equal. rewrite length_map.
  apply list_eq. intros i.
  rewrite list_lookup_imap, !map_is_fmap, !list_lookup_fmap, lookup_zip_with.
  destruct (l !! i) as [x|] eqn:E; simpl.
  - apply lookup_lt_Some in E as Hlt.
    rewrite (lookup_seq_lt 0 (length l) i Hlt). reflexivity.
  - destruct (seq 0 (length l) !! i); reflexivity.
Qed.

Lemma in_indexed {A : Type} (l : list A) (p : nat * A) : In p (indexed l) -> In p.2 l.
Proof.
  unfold indexed. intros H. apply list_elem_of_In in H. destruct p as [i x].
  apply elem_of_zip_r in H. apply list_elem_of_In. exact H.
Qed.

Lemma length_indexed {A : Type} (l : list A) : length (indexed l) = length l.
Proof. unfold indexed. rewrite length_zip, length_seq. lia. Qed.

Lemma lookup_indexed {A : Type} (l : list A) (i : nat) (p : nat * A) :
  indexed l !! i = Some p <-> p.1 = i /\ l !! i = Some p.2.
Proof.
  unfold indexed. rewrite lookup_zip_with. destruct p as [j x]. simpl. split.
  - intros H. destruct (seq 0 (length l) !! i) as [n|] eqn:E; simpl in H; [|discriminate].
    apply lookup_seq in E as [-> _]. destruct (l !! i); simpl in H; [|discriminate].
    inversion H; subst. split; reflexivity.
  - intros [-> H]. apply lookup_lt_Some in H as Hlt.
    rewrite (lookup_seq_lt 0 (length l) i Hlt), H. reflexivity.
Qed.

(** ** Order of keys *)

Lemma Qle_bool_total (p q : Q) : Qle_bool p q = false -> Qle_bool q p = true.
Proof.
  intros H. apply Qle_bool_iff. destruct (Qlt_le_dec q p) as [L|L].
  - apply Qlt_le_weak, L.
  - apply Qle_bool_iff in L. congruence.
Qed.

Lemma value_leb_total (a b : value) : value_leb a b = false -> value_leb b a = true.
Proof.
  destruct a as [s|p|x|], b as [t|q|y|]; simpl; intros H;
    try reflexivity; try discriminate; try (apply Qle_bool_total; exact H).
  destruct (String.leb_total s t) as [E|E]; congruence.
Qed.

Lemma key_leb_total (k1 k2 : list value) : key_leb k1 k2 = false -> key_leb k2 k1 = true.
Proof.
  revert k2. induction k1 as [|a k1 IH]; intros [|b k2]; simpl; try congruence.
  destruct (value_leb a b) eqn:Eab.
  - destruct (value_leb b a) eqn:Eba; [apply IH|discriminate].
  - intros _. rewrite (value_leb_total a b Eab). reflexivity.
Qed.

Lemma key_leb_head (a b : value) (k1 k2 : list value) :
  key_leb (a :: k1) (b :: k2) = true -> value_leb a b = true.
Proof. simpl. destruct (value_leb a b); [reflexivity|discriminate]. Qed.

Lemma in_nub_by {A : Type} (eqb : A -> A -> bool) (x : A) (l : list A) :
  In x (nub_by eqb l) -> In x l.
Proof.
  induction l as [|a l IH]; simpl; [tauto|].
  intros [H|H]; [left; exact H|]. right. apply filter_In in H. apply IH. tauto.
Qed.

Lemma in_group_index (df : DataFrame) (keys : list string) (k : list value) :
  In k (group_index df keys) ->
  exists r, In r (rows df) /\ k = key_of keys r
            /\ existsb is_nan (key_of keys r) = false.
Proof.
  unfold group_index. intros H. apply in_sort_by, in_nub_by, in_map_iff in H.
  destruct H as (r & <- & Hr). unfold keyed_rows in Hr.
  apply filter_In in Hr as [Hr Hn]. apply negb_true_iff in Hn. exists r. auto.
Qed.

Lemma group_index_sorted (df : DataFrame) (keys : list string) :
  Sorted (lebP key_leb) (group_index df keys).
Proof. apply sort_by_sorted, key_leb_total. Qed.

Lemma Sorted_impl_in {A : Type} (R R' : A -> A -> Prop) (l : list A) :
  (forall x y, In x l -> In y l -> R x y -> R' x y) -> Sorted R l -> Sorted R' l.
Proof.
  intros H Hs. induction Hs as [|a l Hs IH Hd]; constructor.
  - apply IH. intros x y Hx Hy. apply H; right; assumption.
  - destruct Hd as [|b l Hab]; constructor.
    apply H; [left; reflexivity|right; left; reflexivity|exact Hab].
Qed.

Lemma Sorted_map {A B : Type} (R : B -> B -> Prop) (f : A -> B) (l : list A) :
  Sorted (fun x y => R (f x) (f y)) l -> Sorted R (map f l).
Proof.
  induction 1 as [|a l Hs IH Hd]; simpl; constructor; [exact IH|].
  destruct Hd; simpl; constructor. assumption.
Qed.

Lemma Sorted_zip_seq {A : Type} (R : A -> A -> Prop) (l : list A) (s : nat) :
  Sorted R l -> Sorted (fun p q : nat * A => R p.2 q.2) (zip (seq s (length l)) l).
Proof.
  intros Hs. revert s. induction Hs as [|a l Hs IH Hd]; intros s; simpl; constructor.
  - apply IH.
  - destruct Hd; simpl; constructor. assumption.
Qed.

(** ** [generate_debit_notes] as a whole *)

Section NoteCells.
Variables (self : DebitNoteGenerator.t) (today : string) (df : DataFrame).

Lemma note_customer_id (i : nat) (r : gmap string value) :
  cell "Customer ID" (debit_note self today df (i, key_of DebitNoteGenerator.group_keys r))
  = cell "Customer Number" r.
Proof.
  unfold debit_note. rewrite cell_project by (simpl; tauto).
  unfold rename_row at 1. cell_simpl.
  unfold fields_row, rounded_row, rename_row, group_row. cell_simpl.
  simpl. cell_simpl. reflexivity.
Qed.

Lemma debit_notes_customer_ids (v : value) :
  In v (map (cell "Customer ID") (debit_notes self today df)) ->
  In v (map (cell "Customer Number") (rows df)).
Proof.
  unfold debit_notes. rewrite map_map. intros H.
  apply in_map_iff in H as ([i k] & <- & Hp).
  apply in_indexed in Hp. simpl in Hp.
  apply in_group_index in Hp as (r & Hr & -> & _).
  rewrite note_customer_id. apply in_map, Hr.
Qed.

Lemma debit_notes_sorted : Sorted (lebP by_customer_id) (debit_notes self today df).
Proof.
  unfold debit_notes. apply Sorted_map.
  apply (Sorted_impl_in (fun p q : nat * list value => lebP key_leb p.2 q.2)).
  - intros [i k1] [j k2] H1 H2.
    apply in_indexed in H1. simpl in H1. apply in_group_index in H1 as (r1 & _ & -> & _).
    apply in_indexed in H2. simpl in H2. apply in_group_index in H2 as (r2 & _ & -> & _).
    unfold lebP, by_customer_id. rewrite !note_customer_id. apply key_leb_head.
  - apply Sorted_zip_seq, group_index_sorted.
Qed.

End NoteCells.

Lemma in_renamed (cols : list string) (old new c : string) :
  In c cols -> c <> old -> In c (map (fun c => if String.eqb c old then new else c) cols).
Proof.
  intros H Hne. apply in_map_iff. exists c. split; [|exact H].
  destruct (String.eqb_spec c old); [contradiction|reflexivity].
Qed.

Lemma generate_debit_notes_rows (self : DebitNoteGenerator.t) (today : string) (df : DataFrame) :
  (forall c, In c (DebitNoteGenerator.group_keys ++ ["interest amount"]) -> In c (columns df)) ->
  (forall r, In r (rows df) -> is_str (cell "interest amount" r) = false) ->
  comparable (map (cell "Customer Number") (rows df)) = true ->
  DebitNoteGenerator.generate_debit_notes self today df
  = OK (mkDF DebitNoteGenerator.cols_to_keep (debit_notes self today df)).
Proof.
  intros Hc Hs Hcmp. unfold DebitNoteGenerator.generate_debit_notes.
  rewrite group_by_customer_rows by assumption. rewrite bind_ok.
  rewrite round_totals_view; [|simpl; tauto|].
  2:{ intros k _. unfold rename_row, group_row. cell_simpl. reflexivity. }
  rewrite bind_ok.
  match goal with
  | |- context [DebitNoteGenerator.add_debit_note_fields today (mkDF ?c (map ?h ?l))] =>
      destruct (add_debit_note_fields_view l h c today) as (cols' & E & Hsub & Hkeep);
        [in_cols; simpl; tauto|rewrite E; clear E]
  end.
  rewrite bind_ok. unfold DebitNoteGenerator.generate_invoice_numbers. cbn [rows].
  rewrite setitem_indexed.
  assert (Hgrp : forall c, In c (DebitNoteGenerator.group_keys ++ ["Total"]) ->
                   In c (add_column "Invoice No." cols')).
  { intros c H. in_cols. apply Hsub. in_cols. }
  unfold DebitNoteGenerator.rename_customer_column.
  rewrite rename_view by (apply Hgrp; simpl; tauto).
  unfold DebitNoteGenerator.select_final_columns.
  rewrite getcols_ok.
  2:{ cbn [columns]. intros c H.
      destruct (String.eqb_spec c "Customer ID") as [->|N1].
      { apply in_map_iff. exists "Customer Number". split; [reflexivity|].
        apply Hgrp. simpl. tauto. }
      apply in_renamed.
      - destruct (String.eqb_spec c "Customer Name") as [->|N2]; [apply Hgrp; simpl; tauto|].
        destruct (String.eqb_spec c "Sales person") as [->|N3]; [apply Hgrp; simpl; tauto|].
        destruct (String.eqb_spec c "Total") as [->|N4]; [apply Hgrp; simpl; tauto|].
        in_cols. apply Hkeep; assumption.
      - intros ->. simpl in H.
        repeat (destruct H as [H|H]; [discriminate H|]). destruct H. }
  rewrite bind_ok. unfold copy. cbn [rows]. rewrite map_map.
  change (map _ (indexed (group_index df DebitNoteGenerator.group_keys)))
    with (debit_notes self today df).
  rewrite sort_values_ok.
  - cbn [rows columns]. rewrite bind_ok. unfold reset_index.
    change (fun r1 r2 => value_leb (cell "Customer ID" r1) (cell "Customer ID" r2))
      with by_customer_id.
    rewrite sort_by_id by apply debit_notes_sorted. reflexivity.
  - simpl. tauto.
  - cbn [rows]. revert Hcmp. apply comparable_incl, debit_notes_customer_ids.
Qed.

(** ** Invoice numbers *)












Lemma generator_input_spec (df : DataFrame) :
  generator_input df = true ->
  (forall c, In c (DebitNoteGenerator.group_keys ++ ["interest amount"]) -> In c (columns df))
  /\ (forall r, In r (rows df) -> is_str (cell "interest amount" r) = false)
  /\ comparable (map (cell "Customer Number") (rows df)) = true.
Proof.
  unfold generator_input. rewrite !andb_true_iff, !forallb_forall.
  intros [[Hc Hr] Hs]. repeat split.
  - intros c Hin. apply has_column_true, Hc, Hin.
  - intros r Hin. apply negb_true_iff, Hr, Hin.
  - exact Hs.
Qed.

Lemma generator_input_runs (self : DebitNoteGenerator.t) (today : string) (df : DataFrame) :
  generator_input df = true ->
  DebitNoteGenerator.generate_debit_notes self today df
  = OK (mkDF DebitNoteGenerator.cols_to_keep (debit_notes self today df)).
Proof.
  intros H. apply generator_input_spec in H as (Hc & Hr & Hs).
  apply generate_debit_notes_rows; assumption.
Qed.

Lemma lookup_debit_notes (self : DebitNoteGenerator.t) (today : string) (df : DataFrame)
    (i : nat) (r : gmap string value) :
  debit_notes self today df !! i = Some r <->
  exists k, group_index df DebitNoteGenerator.group_keys !! i = Some k
            /\ r = debit_note self today df (i, k).
Proof.
  unfold debit_notes. rewrite map_is_fmap, list_lookup_fmap. split.
  - destruct (indexed _ !! i) as [[j k]|] eqn:E; simpl; [|discriminate].
    intros [= <-]. apply lookup_indexed in E as [Hj Hk]. simpl in *. subst j.
    exists k. split; [exact Hk|reflexivity].
  - intros (k & Hk & ->).
    rewrite (proj2 (lookup_indexed _ i (i, k)) (conj eq_refl Hk)). reflexivity.
Qed.








Section NoteTotals.
Variables (self : DebitNoteGenerator.t) (today : string) (df : DataFrame).

Ltac note_cell :=
  unfold debit_note; rewrite cell_project by (simpl; tauto);
  unfold rename_row at 1; cell_simpl; unfold fields_row; cell_simpl.



Lemma note_literals (p : nat * list value) :
  cell "Notes" (debit_note self today df p) = VStr "OD Charges Dec-2025"
  /\ cell "Item Desc" (debit_note self today df p) = VStr "OD Charges Dec-2025".
Proof. split; note_cell; reflexivity. Qed.

End NoteTotals.


(** ** Empty results *)



(** ** The description literal *)

Lemma add_debit_note_fields_rows (today : string) (df out : DataFrame) :
  DebitNoteGenerator.add_debit_note_fields today df = OK out ->
  rows out = map (fields_row today) (rows df).
Proof.
  destruct df as [cols l]. intros H.
  destruct (in_dec string_dec "Total" cols) as [Hin|Hnot].
  - destruct (add_debit_note_fields_view l id cols today Hin) as (cols' & E & _).
    rewrite map_id in E. rewrite E in H. inversion H. reflexivity.
  - exfalso. unfold DebitNoteGenerator.add_debit_note_fields in H. cbv zeta in H.
    rewrite getitem_missing in H; [discriminate H|].
    unfold setconst. cbn [columns]. intros Hc.
    repeat (apply in_add_column in Hc as [Hc|Hc]; [discriminate Hc|]).
    contradiction.
Qed.

(** C7, as the program has it: the description is the constant
    "OD Charges Dec-2025" written in [add_debit_note_fields]; no parameter
    of the generator changes it.  Description, Notes and Item Desc of every
    row carry it after [add_debit_note_fields]; the generated table keeps
    Notes and Item Desc and has no Description column. *)
Theorem C7_description_is_a_constant
    (self : DebitNoteGenerator.t) (today : string) (df : DataFrame) :
  generator_input df = true ->
  (forall fields,
     DebitNoteGenerator.add_debit_note_fields today df = OK fields ->
     forall r, In r (rows fields) ->
       cell "Description" r = VStr "OD Charges Dec-2025"
       /\ cell "Notes" r = VStr "OD Charges Dec-2025"
       /\ cell "Item Desc" r = VStr "OD Charges Dec-2025")
  /\ exists out,
       DebitNoteGenerator.generate_debit_notes self today df = OK out
       /\ ~ In "Description" (columns out)
       /\ forall r, In r (rows out) ->
            cell "Notes" r = VStr "OD Charges Dec-2025"
            /\ cell "Item Desc" r = VStr "OD Charges Dec-2025".
Proof.
  intros Hin. split.
  - intros fields H r Hr. rewrite (add_debit_note_fields_rows today df fields H) in Hr.
    apply in_map_iff in Hr as (x & <- & _).
    unfold fields_row. cell_simpl. repeat split; reflexivity.
  - exists (mkDF DebitNoteGenerator.cols_to_keep (debit_notes self today df)).
    split; [apply generator_input_runs, Hin|]. cbn [rows columns]. split.
    + intros H. simpl in H. repeat (destruct H as [H|H]; [discriminate H|]). destruct H.
    + intros r Hr. unfold debit_notes in Hr. apply in_map_iff in Hr as (p & <- & _).
      apply note_literals.
Qed.

(** At the sample table no configuration of the generator makes the notes
    read "OD Charges Jan-2026". *)
Lemma C7_counterexample :
  ~ (exists (self : DebitNoteGenerator.t) (today : string) (out : DataFrame),
       DebitNoteGenerator.generate_debit_notes self today sample_interest = OK out
       /\ rows out <> []
       /\ forall r, In r (rows out) -> cell "Notes" r = VStr "OD Charges Jan-2026").
Proof.
  intros (self & today & out & H & Hne & Hall).
  rewrite generator_input_runs in H by (vm_compute; reflexivity).
  inversion H; subst out; clear H. cbn [rows] in *.
  destruct (debit_notes self today sample_interest) as [|r l] eqn:E; [contradiction|].
  assert (Hr : In r (debit_notes self today sample_interest)) by (rewrite E; left; reflexivity).
  pose proof (Hall r (or_introl eq_refl)) as Hjan.
  unfold debit_notes in Hr. apply in_map_iff in Hr as (p & <- & _).
  rewrite (proj1 (note_literals self today sample_interest p)) in Hjan.
  discriminate Hjan.
Qed.

Lemma C7_witness :
  exists out,
    DebitNoteGenerator.generate_debit_notes DebitNoteGenerator.default "2026-01-05"
      sample_interest = OK out
    /\ ~ In "Description" (columns out)
    /\ forall r, In r (rows out) ->
         cell "Notes" r = VStr "OD Charges Dec-2025"
         /\ cell "Item Desc" r = VStr "OD Charges Dec-2025".
Proof.
  apply (C7_description_is_a_constant DebitNoteGenerator.default "2026-01-05" sample_interest).
  vm_compute. reflexivity.
Defined.

(** ** Configurations *)

(** C8, as the program has it: the constructors keep whatever they are
    given and nothing validates it later, so every configuration, valid or
    not, processes a well-formed table to the end. *)
Theorem C8_no_configuration_is_rejected
    (rate : Q) (thr cap : Z) (prefix : string) (start : Z) (today : string)
    (cleaned interest : DataFrame) :
  cleaned_table cleaned = true ->
  generator_input interest = true ->
  InterestCalculator.per_day_rate (InterestCalculator.init rate thr cap) = rate
  /\ InterestCalculator.due_days_threshold (InterestCalculator.init rate thr cap) = thr
  /\ InterestCalculator.max_working_days (InterestCalculator.init rate thr cap) = cap
  /\ DebitNoteGenerator.invoice_prefix (DebitNoteGenerator.init prefix start) = prefix
  /\ DebitNoteGenerator.starting_number (DebitNoteGenerator.init prefix start) = start
  /\ (exists out,
        InterestCalculator.calculate_interest (InterestCalculator.init rate thr cap) cleaned
        = OK out)
  /\ (exists out,
        DebitNoteGenerator.generate_debit_notes (DebitNoteGenerator.init prefix start)
          today interest = OK out).
Proof.
  intros Hc Hg. repeat split; try reflexivity.
  - eexists. apply cleaned_table_runs, Hc.
  - eexists. apply generator_input_runs, Hg.
Qed.

(** A negative rate, a cap of zero days and a negative starting number go
    through both stages of the sample tables without an error. *)
Lemma C8_counterexample :
  ~ (forall (rate : Q) (thr cap : Z) (prefix : string) (start : Z) (today : string),
       invalid_configuration rate cap start = true ->
       (exists e,
          InterestCalculator.calculate_interest (InterestCalculator.init rate thr cap)
            sample_cleaned = Err e)
       /\ (exists e,
             DebitNoteGenerator.generate_debit_notes (DebitNoteGenerator.init prefix start)
               today sample_interest = Err e)).
Proof.
  intros H.
  destruct (H (- (6 # 100))%Q 150%Z 0%Z "CDN/SA-" (-5)%Z "2026-01-05" eq_refl) as [[e He] _].
  rewrite cleaned_table_runs in He by (vm_compute; reflexivity).
  discriminate He.
Qed.

Lemma C8_witness :
  invalid_configuration (- (6 # 100)) 0 (-5) = true
  /\ (exists out,
        InterestCalculator.calculate_interest
          (InterestCalculator.init (- (6 # 100)) 150 0) sample_cleaned = OK out)
  /\ (exists out,
        DebitNoteGenerator.generate_debit_notes (DebitNoteGenerator.init "CDN/SA-" (-5))
          "2026-01-05" sample_interest = OK out).
Proof.
  split; [reflexivity|].
  apply (C8_no_configuration_is_rejected (- (6 # 100)) 150 0 "CDN/SA-" (-5) "2026-01-05"
           sample_cleaned sample_interest); vm_compute; reflexivity.
Defined.

(** ** Grouping by the composite key *)

Lemma value_eqb_refl (a : value) : is_nan a = false -> value_eqb a a = true.
Proof.
  destruct a as [s|q|b|]; simpl; intros H; try discriminate.
  - apply String.eqb_refl.
  - apply Qeq_bool_iff. reflexivity.
  - apply Qeq_bool_iff. reflexivity.
Qed.

Lemma value_eqb_sym (a b : value) : value_eqb a b = true -> value_eqb b a = true.
Proof.
  destruct a as [s|p|x|], b as [t|q|y|]; simpl; intros H; try discriminate;
    try (apply Qeq_bool_iff; apply Qeq_bool_iff in H; symmetry; exact H).
  apply String.eqb_eq in H. subst. apply String.eqb_refl.
Qed.

Lemma value_eqb_trans (a b c : value) :
  value_eqb a b = true -> value_eqb b c = true -> value_eqb a c = true.
Proof.
  destruct a as [s|p|x|], b as [t|q|y|], c as [u|r|z|]; simpl; intros H1 H2;
    try discriminate;
    try (apply Qeq_bool_iff; apply Qeq_bool_iff in H1; apply Qeq_bool_iff in H2;
         rewrite H1; exact H2).
  apply String.eqb_eq in H1, H2. subst. apply String.eqb_refl.
Qed.

Lemma key_eqb_refl (k : list value) : existsb is_nan k = false -> key_eqb k k = true.
Proof.
  induction k as [|a k IH]; simpl; [reflexivity|].
  intros H. apply orb_false_iff in H as [Ha Hk].
  rewrite (value_eqb_refl a Ha). apply IH, Hk.
Qed.

Lemma key_eqb_sym (k1 k2 : list value) : key_eqb k1 k2 = true -> key_eqb k2 k1 = true.
Proof.
  revert k2. induction k1 as [|a k1 IH]; intros [|b k2]; simpl; try discriminate; [reflexivity|].
  intros H. apply andb_true_iff in H as [Hab H].
  rewrite (value_eqb_sym a b Hab). apply IH, H.
Qed.

Lemma key_eqb_trans (k1 k2 k3 : list value) :
  key_eqb k1 k2 = true -> key_eqb k2 k3 = true -> key_eqb k1 k3 = true.
Proof.
  revert k2 k3. induction k1 as [|a k1 IH]; intros [|b k2] [|c k3]; simpl;
    try discriminate; [reflexivity|].
  intros H1 H2. apply andb_true_iff in H1 as [Hab H1]. apply andb_true_iff in H2 as [Hbc H2].
  rewrite (value_eqb_trans a b c Hab Hbc). apply (IH k2 k3 H1 H2).
Qed.

(** Every key with no missing part has a representative among the distinct keys. *)
Lemma nub_by_covers (l : list (list value)) (k : list value) :
  In k l -> existsb is_nan k = false ->
  exists k', In k' (nub_by key_eqb l) /\ key_eqb k' k = true.
Proof.
  induction l as [|a l IH]; intros Hin Hk; [destruct Hin|].
  destruct Hin as [->|Hin].
  - exists k. split; [left; reflexivity|apply key_eqb_refl, Hk].
  - destruct (IH Hin Hk) as (k' & Hk' & E).
    destruct (key_eqb a k') eqn:Ea.
    + exists a. split; [left; reflexivity|]. apply (key_eqb_trans a k' k Ea E).
    + exists k'. split; [|exact E]. simpl. right.
      apply filter_In. split; [exact Hk'|]. rewrite Ea. reflexivity.
Qed.

Lemma group_index_covers (df : DataFrame) (keys : list string) (r : gmap string value) :
  In r (rows df) -> existsb is_nan (key_of keys r) = false ->
  exists i k, group_index df keys !! i = Some k /\ key_eqb k (key_of keys r) = true.
Proof.
  intros Hr Hn.
  destruct (nub_by_covers (map (key_of keys) (keyed_rows df keys)) (key_of keys r))
    as (k & Hk & E).
  - apply in_map. unfold keyed_rows. apply filter_In. split; [exact Hr|].
    rewrite Hn. reflexivity.
  - exact Hn.
  - assert (Hin : In k (group_index df keys)) by (unfold group_index; apply in_sort_by, Hk).
    apply list_elem_of_In, list_elem_of_lookup in Hin as [i Hi].
    exists i, k. split; assumption.
Qed.

Lemma note_sales_person (self : DebitNoteGenerator.t) (today : string) (df : DataFrame)
    (i : nat) (r : gmap string value) :
  cell "Sales person" (debit_note self today df (i, key_of DebitNoteGenerator.group_keys r))
  = cell "Sales person" r.
Proof.
  unfold debit_note. rewrite cell_project by (simpl; tauto).
  unfold rename_row at 1. cell_simpl.
  unfold fields_row, rounded_row, rename_row, group_row. cell_simpl.
  simpl. cell_simpl. reflexivity.
Qed.

Lemma key_eqb_sales_person (r1 r2 : gmap string value) :
  key_eqb (key_of DebitNoteGenerator.group_keys r1) (key_of DebitNoteGenerator.group_keys r2)
  = true ->
  value_eqb (cell "Sales person" r1) (cell "Sales person" r2) = true.
Proof.
  simpl. rewrite !andb_true_iff. tauto.
Qed.

(** On a table that names the column "Sales person", two rows that differ
    in the salesperson end up in two different debit notes, each carrying
    its own salesperson, also when the customer is the same. *)
Lemma distinct_salespersons_distinct_notes
    (self : DebitNoteGenerator.t) (today : string) (df : DataFrame)
    (r1 r2 : gmap string value) :
  generator_input df = true ->
  In r1 (rows df) -> In r2 (rows df) ->
  existsb is_nan (key_of DebitNoteGenerator.group_keys r1) = false ->
  existsb is_nan (key_of DebitNoteGenerator.group_keys r2) = false ->
  value_eqb (cell "Sales person" r1) (cell "Sales person" r2) = false ->
  exists out i j n1 n2,
    DebitNoteGenerator.generate_debit_notes self today df = OK out
    /\ i <> j
    /\ rows out !! i = Some n1 /\ rows out !! j = Some n2
    /\ value_eqb (cell "Sales person" n1) (cell "Sales person" r1) = true
    /\ value_eqb (cell "Sales person" n2) (cell "Sales person" r2) = true.
Proof.
  intros Hin H1 H2 N1 N2 Hne.
  destruct (group_index_covers df DebitNoteGenerator.group_keys r1 H1 N1) as (i & k1 & Hi & E1).
  destruct (group_index_covers df DebitNoteGenerator.group_keys r2 H2 N2) as (j & k2 & Hj & E2).
  exists (mkDF DebitNoteGenerator.cols_to_keep (debit_notes self today df)), i, j,
    (debit_note self today df (i, k1)), (debit_note self today df (j, k2)).
  split; [apply generator_input_runs, Hin|]. cbn [rows].
  assert (Hk1 : In k1 (group_index df DebitNoteGenerator.group_keys)).
  { apply list_elem_of_In, list_elem_of_lookup. exists i. exact Hi. }
  assert (Hk2 : In k2 (group_index df DebitNoteGenerator.group_keys)).
  { apply list_elem_of_In, list_elem_of_lookup. exists j. exact Hj. }
  apply in_group_index in Hk1 as (x1 & _ & -> & _).
  apply in_group_index in Hk2 as (x2 & _ & -> & _).
  split.
  - intros ->.
    pose proof (eq_trans (eq_sym Hi) Hj) as Hk.
    apply (f_equal (fun o : option (list value) => match o with Some k => k | None => [] end))
      in Hk.
    cbv beta iota in Hk. rewrite <- Hk in E2.
    pose proof (key_eqb_trans _ _ _ (key_eqb_sym _ _ E1) E2) as E.
    apply key_eqb_sales_person in E. congruence.
  - split; [apply lookup_debit_notes; exists (key_of DebitNoteGenerator.group_keys x1); auto|].
    split; [apply lookup_debit_notes; exists (key_of DebitNoteGenerator.group_keys x2); auto|].
    rewrite !note_sales_person. split; apply key_eqb_sales_person; assumption.
Qed.

(** ** The column the generator groups by *)

Lemma bind_err {A B : Type} (e : error) (k : A -> result B) : (Err e ≫= k) = Err e.
Proof. reflexivity. Qed.

Lemma calculate_interest_columns (self : InterestCalculator.t) (df out : DataFrame) :
  InterestCalculator.calculate_interest self df = OK out ->
  columns out = InterestCalculator.final_columns.
Proof.
  unfold InterestCalculator.calculate_interest.
  destruct (InterestCalculator.filter_by_age self df) as [d1|e];
    [rewrite bind_ok|intros H; discriminate H].
  destruct (sort_values d1 "Customer Name") as [d2|e];
    [rewrite bind_ok|intros H; discriminate H].
  destruct (InterestCalculator.calculate_working_days self (reset_index d2)) as [d3|e];
    [rewrite bind_ok|intros H; discriminate H].
  destruct (InterestCalculator.calculate_interest_percentage self d3) as [d4|e];
    [rewrite bind_ok|intros H; discriminate H].
  destruct (InterestCalculator.calculate_interest_amount self d4) as [d5|e];
    [rewrite bind_ok|intros H; discriminate H].
  unfold InterestCalculator.select_final_columns, getcols.
  destruct (missing_column d5 InterestCalculator.final_columns); intros H; inversion H.
  reflexivity.
Qed.

Lemma generate_without_sales_person
    (self : DebitNoteGenerator.t) (today : string) (df : DataFrame) :
  columns df = InterestCalculator.final_columns ->
  DebitNoteGenerator.generate_debit_notes self today df = Err (KeyError "Sales person").
Proof.
  intros E. unfold DebitNoteGenerator.generate_debit_notes,
    DebitNoteGenerator.group_by_customer, groupby_sum.
  assert (M : missing_column df (DebitNoteGenerator.group_keys ++ ["interest amount"])
              = Some "Sales person").
  { unfold missing_column, has_column. rewrite E. vm_compute. reflexivity. }
  rewrite M. reflexivity.
Qed.

(** C1: the table [calculate_interest] returns names the salesperson column
    "Sale Person" while [group_by_customer] groups by "Sales person", so
    [generate_debit_notes] raises KeyError on every interest table; on the
    sample, two rows of customer C001 with salespersons Ravi and Meena give
    no debit note at all. *)
Theorem C1_interest_table_has_no_sales_person_column :
  (forall (calc : InterestCalculator.t) (gen : DebitNoteGenerator.t) (today : string)
          (df : DataFrame),
     match InterestCalculator.calculate_interest calc df with
     | OK interest =>
         DebitNoteGenerator.generate_debit_notes gen today interest
         = Err (KeyError "Sales person")
     | Err _ => True
     end)
  /\ exists interest,
       InterestCalculator.calculate_interest InterestCalculator.default sample_cleaned
       = OK interest
       /\ map (fun r => (cell "Customer Number" r, cell "Sale Person" r)) (rows interest)
          = [ (VStr "C001", VStr "Ravi"); (VStr "C001", VStr "Meena");
              (VStr "C003", VStr "Meena") ]
       /\ DebitNoteGenerator.generate_debit_notes DebitNoteGenerator.default "2026-01-05"
            interest = Err (KeyError "Sales person").
Proof.
  split.
  - intros calc gen today df.
    destruct (InterestCalculator.calculate_interest calc df) as [interest|e] eqn:E; [|exact I].
    apply generate_without_sales_person, (calculate_interest_columns calc df), E.
  - eexists. split; [vm_compute; reflexivity|]. split; vm_compute; reflexivity.
Qed.

(** With the column under the name the generator reads, the two
    salespersons of customer C001 get a debit note each. *)
Example grouping_keeps_salespersons_apart :
  exists out,
    DebitNoteGenerator.generate_debit_notes DebitNoteGenerator.default "2026-01-05"
      sample_interest = OK out
    /\ map (fun r => (cell "Customer ID" r, cell "Sales person" r, cell "Total" r,
                      cell "Invoice No." r)) (rows out)
       = [ (VStr "C001", VStr "Meena", VNum 186, VStr "CDN/SA-000311");
           (VStr "C001", VStr "Ravi", VNum 186, VStr "CDN/SA-000312");
           (VStr "C003", VStr "Meena", VNum 1, VStr "CDN/SA-000313") ].
Proof. eexists. split; vm_compute; reflexivity. Qed.

(** ** Cleaning *)

(** [clean_currency_column] never fails on a column that exists, and leaves
    a number in every cell of it: what does not parse becomes [fill_na]. *)
Lemma clean_currency_column_numbers (df : DataFrame) (c : string) (fill_na : Q) :
  In c (columns df) ->
  exists out,
    DataProcessor.clean_currency_column df c fill_na = OK out
    /\ Forall2 (fun r r' => exists q : Q, cell c r' = VNum q) (rows df) (rows out).
Proof.
  intros Hc. destruct df as [cols l]. cbn [rows columns] in *.
  unfold DataProcessor.clean_currency_column.
  rewrite getitem_ok by exact Hc. rewrite bind_ok. cbn [rows].
  rewrite map_map.
  pose proof (setitem_view l id cols c) as Hset. rewrite map_id in Hset. rewrite Hset.
  rewrite getitem_view by in_cols. rewrite bind_ok, map_map, setitem_view.
  eexists. split; [reflexivity|]. cbn [rows]. apply Forall2_map_r. intros r _.
  rewrite !cell_insert_eq. unfold id.
  destruct (cell c r) as [s|q|b|]; cbn [DataProcessor.astype_str_then DataProcessor.to_numeric].
  - destruct (DataProcessor.to_numeric_str _); simpl; eauto.
  - simpl. eauto.
  - destruct (DataProcessor.to_numeric_str _); simpl; eauto.
  - destruct (DataProcessor.to_numeric_str _); simpl; eauto.
Qed.

(** C5: thousands separators and blanks are removed and a text that is no
    number becomes 0, but the symbol [clean_currency_column] removes is the
    three-character text "â‚¹", not the rupee sign: "₹12,345.00" keeps its
    sign, fails to parse and becomes 0 instead of 12345. *)
Theorem C5_rupee_amount_becomes_zero :
  exists out,
    DataProcessor.clean_currency_column
      (column_table "Amount"
         [ VStr "₹12,345.00"; VStr "abc"; VStr ""; VStr " 12,345.00 "; VStr "â‚¹12,345.00" ])
      "Amount" 0 = OK out
    /\ map (cell "Amount") (rows out) = [ VNum 0; VNum 0; VNum 0; VNum 12345; VNum 12345 ].
Proof. eexists. split; vm_compute; reflexivity. Qed.

Lemma loc_setconst_view {X : Type} (l : list X) (h : X -> gmap string value)
    (cols : list string) (m : X -> bool) (c : string) (v : value) :
  loc_setconst (mkDF cols (map h l)) (map m l) c v
  = mkDF (add_column c cols) (map (fun x => if m x then <[c := v]> (h x) else h x) l).
Proof.
  unfold loc_setconst. cbn [rows columns]. f_equal. apply list_eq. intros i.
  rewrite list_lookup_imap, !map_is_fmap, !list_lookup_fmap.
  destruct (l !! i); reflexivity.
Qed.






(** ** The theorems at the sample tables *)







(** The samples, run: the kept rows of [sample_cleaned] and their derived fields. *)
Example sample_interest_rows :
  exists out,
    InterestCalculator.calculate_interest InterestCalculator.default sample_cleaned = OK out
    /\ map (fun r => (cell "Age" r, cell "interst working" r, cell "Previous interst" r,
                      cell "working interst in %" r, cell "interest amount" r)) (rows out)
       = [ (VNum 200, VNum 31, VNum 19, VNum (93 # 50), VNum 186);
           (VNum 181, VNum 31, VNum 0, VNum (93 # 50), VNum (93 # 2));
           (VNum 151, VNum 1, VNum 0, VNum (3 # 50), VNum (3 # 4)) ].
Proof. eexists. split; vm_compute; reflexivity. Qed.

Example sample_ages_cleaned :
  exists out,
    DataProcessor.clean_age_column sample_ages 300 = OK out
    /\ map (cell "Age") (rows out) = [ VNum 200; VNum 300; VNum 300; VNum 45 ].
Proof. eexists. split; vm_compute; reflexivity. Qed.

Example replace_ex : Py.replace "," "" "1,234,567" = "1234567".
Proof. reflexivity. Qed.

Example strip_ex : Py.strip "  12 3 	" = "12 3".
Proof. reflexivity. Qed.

Example zfill_ex :
  Py.zfill 6 (Py.str_of_int 311) = "000311" /\ Py.zfill 6 (Py.str_of_int (-5)) = "-00005"
  /\ Py.zfill 6 (Py.str_of_int 1234567) = "1234567" /\ Py.str_of_int 0 = "0".
Proof. repeat split; reflexivity. Qed.

Example to_numeric_ex :
  DataProcessor.to_numeric_str "12345.00" = Some 12345%Q
  /\ DataProcessor.to_numeric_str "-1.5e-2" = Some (- (3 # 200))%Q
  /\ DataProcessor.to_numeric_str "abc" = None
  /\ DataProcessor.to_numeric_str "" = None
  /\ DataProcessor.to_numeric_str "₹12345.00" = None.
Proof. repeat split; vm_compute; reflexivity. Qed.


(** * Further properties of the pipeline *)

(** ** The cleaner *)

Lemma add_column_in (c : string) (cols : list string) : In c cols -> add_column c cols = cols.
Proof.
  intros H. unfold add_column.
  rewrite (bool_decide_eq_true_2 _ (proj2 (list_elem_of_In _ _) H)). reflexivity.
Qed.

Lemma has_column_false (df : DataFrame) (c : string) :
  has_column df c = false <-> ~ In c (columns df).
Proof.
  rewrite <- has_column_true. destruct (has_column df c); split; intros H; congruence.
Qed.

Lemma is_overdue_status (r : gmap string value) :
  is_overdue r = true <-> cell "Status" r = VStr "Overdue".
Proof.
  unfold is_overdue. destruct (cell "Status" r) as [u| | |]; split; intros H; try discriminate.
  - apply String.eqb_eq in H. subst. reflexivity.
  - inversion H. reflexivity.
Qed.

Lemma filter_overdue_rows (df : DataFrame) :
  DataProcessor.filter_overdue df
  = (if has_column df "Status"
     then OK (mkDF (columns df) (List.filter is_overdue (rows df)))
     else Err (KeyError "Status")).
Proof.
  unfold DataProcessor.filter_overdue, getitem.
  destruct (has_column df "Status"); [|reflexivity].
  rewrite bind_ok. unfold series_eq_str, copy, getmask. rewrite map_map.
  change (fun x => match cell "Status" x with
                   | VStr u => String.eqb u "Overdue"
                   | _ => false
                   end) with is_overdue.
  rewrite select_map_filter. reflexivity.
Qed.

(** [filter_overdue] needs the Status column and nothing else: it keeps,
    in their order and with all their columns, exactly the rows whose
    Status is the text "Overdue" (the match is exact, "overdue" is dropped). *)
Theorem filter_overdue_exact (df : DataFrame) :
  DataProcessor.filter_overdue df
  = (if has_column df "Status"
     then OK (mkDF (columns df) (List.filter is_overdue (rows df)))
     else Err (KeyError "Status"))
  /\ (forall r, In r (List.filter is_overdue (rows df)) <->
                In r (rows df) /\ cell "Status" r = VStr "Overdue")
  /\ (forall r, cell "Status" r = VStr "overdue" -> is_overdue r = false).
Proof.
  split; [apply filter_overdue_rows|split].
  - intros r. rewrite filter_In, is_overdue_status. reflexivity.
  - intros r H. unfold is_overdue. rewrite H. reflexivity.
Qed.

Lemma filter_filter_same {A : Type} (p : A -> bool) (l : list A) :
  List.filter p (List.filter p l) = List.filter p l.
Proof.
  induction l as [|a l IH]; simpl; [reflexivity|].
  destruct (p a) eqn:E; simpl; [rewrite E, IH|]; auto.
Qed.

(** Filtering twice changes nothing more. *)
Theorem filter_overdue_idempotent (df out : DataFrame) :
  DataProcessor.filter_overdue df = OK out ->
  DataProcessor.filter_overdue out = OK out.
Proof.
  intros H. rewrite filter_overdue_rows in H.
  destruct (has_column df "Status") eqn:Hc; [|discriminate H].
  inversion H; subst out; clear H.
  rewrite filter_overdue_rows. unfold has_column in *. cbn [columns rows]. rewrite Hc.
  rewrite filter_filter_same. reflexivity.
Qed.

Lemma filter_overdue_idempotent_witness :
  exists out, DataProcessor.filter_overdue sample_raw = OK out
              /\ DataProcessor.filter_overdue out = OK out /\ length (rows out) = 3.
Proof.
  eexists. split; [vm_compute; reflexivity|]. split.
  - apply (filter_overdue_idempotent sample_raw). vm_compute. reflexivity.
  - reflexivity.
Defined.

Lemma cell_drop_row (cols : list string) (c : string) (r : gmap string value) :
  ~ In c cols -> cell c (drop_row cols r) = cell c r.
Proof.
  induction cols as [|d cols IH]; intros H; simpl; [reflexivity|].
  rewrite cell_delete_ne by (intros ->; apply H; left; reflexivity).
  apply IH. intros Hc. apply H. right. exact Hc.
Qed.

Lemma dropped_columns_cases (df : DataFrame) :
  (In "Sale person" (columns df) /\ dropped_columns df = ["Sale person"])
  \/ (~ In "Sale person" (columns df) /\ dropped_columns df = []).
Proof.
  unfold dropped_columns. simpl. destruct (has_column df "Sale person") eqn:E.
  - left. split; [apply has_column_true, E|reflexivity].
  - right. split; [apply has_column_false, E|reflexivity].
Qed.

Lemma remove_duplicate_columns_rows (df : DataFrame) :
  DataProcessor.remove_duplicate_columns df
  = mkDF (List.filter (fun c => negb (bool_decide (c ∈ dropped_columns df))) (columns df))
      (map (drop_row (dropped_columns df)) (rows df)).
Proof. reflexivity. Qed.

Lemma filter_all {A : Type} (p : A -> bool) (l : list A) :
  (forall x, In x l -> p x = true) -> List.filter p l = l.
Proof.
  induction l as [|a l IH]; intros H; simpl; [reflexivity|].
  rewrite (H a (or_introl eq_refl)). f_equal. apply IH. intros x Hx. apply H. right. exact Hx.
Qed.

(** [remove_duplicate_columns] takes out the column "Sale person" and only
    that one: the other columns keep their order and their cells ("Sale
    Person", with a capital P, stays); a table without the column comes
    back unchanged, without an error. *)
Theorem remove_duplicate_columns_only_sale_person (df : DataFrame) :
  let out := DataProcessor.remove_duplicate_columns df in
  ~ In "Sale person" (columns out)
  /\ (forall c, c <> "Sale person" -> (In c (columns out) <-> In c (columns df)))
  /\ Forall2 (fun r r' => forall c, c <> "Sale person" -> cell c r' = cell c r)
       (rows df) (rows out)
  /\ (~ In "Sale person" (columns df) -> out = df).
Proof.
  intros out. subst out. rewrite remove_duplicate_columns_rows. cbn [columns rows].
  destruct (dropped_columns_cases df) as [[Hin ->]|[Hnot ->]].
  - split; [|split; [|split]].
    + intros H. apply filter_In in H as [_ H]. apply negb_true_iff in H.
      apply bool_decide_eq_false in H. apply H. apply list_elem_of_In. left. reflexivity.
    + intros c Hc. rewrite filter_In. split; [tauto|]. intros H. split; [exact H|].
      apply negb_true_iff, bool_decide_eq_false. intros Hm.
      apply list_elem_of_In in Hm as [Hm|[]]. congruence.
    + apply Forall2_map_r. intros r _ c Hc. apply cell_drop_row.
      intros [H|[]]. congruence.
    + intros H. contradiction.
  - split; [|split; [|split]].
    + intros H. apply filter_In in H as [H _]. contradiction.
    + intros c Hc. rewrite filter_In. split; [tauto|]. intros H. split; [exact H|reflexivity].
    + apply Forall2_map_r. intros r _ c Hc. reflexivity.
    + intros _. destruct df as [cols l]. cbn [columns rows]. f_equal.
      * apply filter_all. intros c _. reflexivity.
      * apply map_id.
Qed.

Lemma clean_currency_column_view {X : Type} (l : list X) (h : X -> gmap string value)
    (cols : list string) (c : string) (fill : Q) :
  In c cols ->
  DataProcessor.clean_currency_column (mkDF cols (map h l)) c fill
  = OK (mkDF cols (map (fun x => clean_currency_row c fill (h x)) l)).
Proof.
  intros Hc. unfold DataProcessor.clean_currency_column.
  rewrite getitem_view by exact Hc. rewrite bind_ok, map_map, setitem_view.
  rewrite getitem_view by in_cols. rewrite bind_ok, map_map, setitem_view.
  rewrite !add_column_in by (try exact Hc; rewrite add_column_in; exact Hc).
  reflexivity.
Qed.

Lemma clean_currency_row_cell (c : string) (fill : Q) (r : gmap string value) :
  cell c (clean_currency_row c fill r)
  = DataProcessor.fillna fill
      (DataProcessor.to_numeric (DataProcessor.astype_str_then currency_text (cell c r))).
Proof. unfold clean_currency_row. rewrite !cell_insert_eq. reflexivity. Qed.

Lemma clean_currency_row_other (c d : string) (fill : Q) (r : gmap string value) :
  d <> c -> cell d (clean_currency_row c fill r) = cell d r.
Proof.
  intros H. unfold clean_currency_row.
  rewrite !cell_insert_ne by (intros E; apply H; symmetry; exact E). reflexivity.
Qed.

Lemma clean_currency_cell_number (fill : Q) (v : value) :
  exists q : Q,
    DataProcessor.fillna fill
      (DataProcessor.to_numeric (DataProcessor.astype_str_then currency_text v)) = VNum q.
Proof.
  destruct v as [s|q|b|]; cbn [DataProcessor.astype_str_then DataProcessor.to_numeric].
  - destruct (DataProcessor.to_numeric_str _); simpl; eauto.
  - simpl. eauto.
  - destruct (DataProcessor.to_numeric_str _); simpl; eauto.
  - destruct (DataProcessor.to_numeric_str _); simpl; eauto.
Qed.


Lemma clean_age_column_view_cols {X : Type} (l : list X) (h : X -> gmap string value)
    (cols : list string) (opening_balance_age : Z) :
  In "Age" cols -> In "Type" cols ->
  DataProcessor.clean_age_column (mkDF cols (map h l)) opening_balance_age
  = OK (mkDF cols (map (fun x => clean_age_row opening_balance_age (h x)) l)).
Proof.
  intros Ha Ht. unfold DataProcessor.clean_age_column.
  rewrite getitem_view by exact Ha. rewrite bind_ok, map_map, setitem_view.
  rewrite getitem_view by in_cols. rewrite bind_ok, map_map, setitem_view.
  rewrite getitem_view by in_cols. rewrite bind_ok.
  unfold series_eq_str. rewrite map_map, loc_setconst_view.
  rewrite !add_column_in by in_cols. reflexivity.
Qed.

Lemma clean_age_row_age (opening_balance_age : Z) (r : gmap string value) :
  cell "Age" (clean_age_row opening_balance_age r)
  = if is_opening_balance (cell "Type" r) then int opening_balance_age
    else DataProcessor.to_numeric (DataProcessor.astype_str_then age_text (cell "Age" r)).
Proof.
  unfold clean_age_row. cell_simpl.
  destruct (is_opening_balance (cell "Type" r)); cell_simpl; reflexivity.
Qed.

Lemma clean_age_row_other (opening_balance_age : Z) (d : string) (r : gmap string value) :
  d <> "Age" -> cell d (clean_age_row opening_balance_age r) = cell d r.
Proof.
  intros H. unfold clean_age_row.
  destruct (is_opening_balance _);
    rewrite !cell_insert_ne by (intros E; apply H; symmetry; exact E); reflexivity.
Qed.

Lemma clean_age_row_number (opening_balance_age : Z) (r : gmap string value) :
  number_or_missing (cell "Age" (clean_age_row opening_balance_age r)) = true.
Proof.
  rewrite clean_age_row_age. destruct (is_opening_balance _); [reflexivity|].
  destruct (cell "Age" r) as [s|q|b|];
    cbn [DataProcessor.astype_str_then DataProcessor.to_numeric]; try reflexivity;
    destruct (DataProcessor.to_numeric_str _); reflexivity.
Qed.

(** [clean_age_column] reads the Age column first and the Type column
    after it, and fails with a KeyError naming the first of the two that is
    absent.  Otherwise the columns stay, every age becomes a number or a
    missing value, and no cell of another column changes. *)
Theorem clean_age_column_behaviour (df : DataFrame) (opening_balance_age : Z) :
  match DataProcessor.clean_age_column df opening_balance_age with
  | OK out =>
      In "Age" (columns df) /\ In "Type" (columns df) /\ columns out = columns df
      /\ Forall2 (fun r r' =>
           number_or_missing (cell "Age" r') = true
           /\ (forall d, d <> "Age" -> cell d r' = cell d r))
           (rows df) (rows out)
  | Err e =>
      (~ In "Age" (columns df) /\ e = KeyError "Age")
      \/ (In "Age" (columns df) /\ ~ In "Type" (columns df) /\ e = KeyError "Type")
  end.
Proof.
  destruct df as [cols l]. cbn [columns rows].
  destruct (in_dec string_dec "Age" cols) as [Ha|Ha].
  - destruct (in_dec string_dec "Type" cols) as [Ht|Ht].
    + pose proof (clean_age_column_view_cols l id cols opening_balance_age Ha Ht) as E.
      rewrite map_id in E. rewrite E. cbn [columns rows].
      repeat split; try assumption.
      apply Forall2_map_r. intros r _. unfold id. split.
      * apply clean_age_row_number.
      * intros d Hd. apply clean_age_row_other, Hd.
    + unfold DataProcessor.clean_age_column.
      rewrite getitem_ok by exact Ha. rewrite bind_ok.
      rewrite getitem_ok by (unfold setitem; cbn [columns]; in_cols). rewrite bind_ok.
      rewrite getitem_missing.
      * right. repeat split; assumption.
      * unfold setitem. cbn [columns]. rewrite !add_column_in by in_cols. exact Ht.
  - unfold DataProcessor.clean_age_column.
    rewrite getitem_missing by exact Ha. left. split; [exact Ha|reflexivity].
Qed.

Lemma in_undropped (df : DataFrame) (c : string) :
  In c (columns df) -> c <> "Sale person" ->
  In c (List.filter (fun c => negb (bool_decide (c ∈ dropped_columns df))) (columns df)).
Proof.
  intros H Hne. apply filter_In. split; [exact H|].
  apply negb_true_iff, bool_decide_eq_false. intros Hm. apply list_elem_of_In in Hm.
  unfold dropped_columns in Hm. apply filter_In in Hm as [[Hm|[]] _]. congruence.
Qed.

Lemma clean_data_rows (df : DataFrame) (opening_balance_age : Z) :
  In "Balance Due" (columns df) -> In "Amount" (columns df) ->
  In "Age" (columns df) -> In "Type" (columns df) ->
  DataProcessor.clean_data df opening_balance_age
  = OK (mkDF (List.filter (fun c => negb (bool_decide (c ∈ dropped_columns df))) (columns df))
          (map (clean_row (dropped_columns df) opening_balance_age) (rows df))).
Proof.
  intros Hb Hm Ha Ht. unfold DataProcessor.clean_data.
  rewrite remove_duplicate_columns_rows.
  rewrite clean_currency_column_view by (apply in_undropped; [exact Hb|discriminate]).
  rewrite bind_ok.
  rewrite clean_currency_column_view by (apply in_undropped; [exact Hm|discriminate]).
  rewrite bind_ok.
  rewrite clean_age_column_view_cols
    by (apply in_undropped; [assumption|discriminate]).
  reflexivity.
Qed.

Lemma cell_clean_row_other (dropped : list string) (oba : Z) (d : string)
    (r : gmap string value) :
  d <> "Age" -> d <> "Amount" -> d <> "Balance Due" -> ~ In d dropped ->
  cell d (clean_row dropped oba r) = cell d r.
Proof.
  intros H1 H2 H3 H4. unfold clean_row.
  rewrite clean_age_row_other by exact H1.
  rewrite clean_currency_row_other by exact H2.
  rewrite clean_currency_row_other by exact H3.
  apply cell_drop_row, H4.
Qed.

Lemma not_in_dropped (df : DataFrame) (d : string) :
  d <> "Sale person" -> ~ In d (dropped_columns df).
Proof.
  intros H Hin. unfold dropped_columns in Hin. apply filter_In in Hin as [[Hin|[]] _].
  congruence.
Qed.

(** [clean_data] on a table with the four columns it reads succeeds: the
    column "Sale person" is gone, the others stay in their order; in every
    row Balance Due and Amount are numbers, Age is a number or missing and
    is the override for an opening-balance row; the cells of every other
    column are what they were. *)
Theorem clean_data_behaviour (df : DataFrame) (opening_balance_age : Z) :
  In "Balance Due" (columns df) -> In "Amount" (columns df) ->
  In "Age" (columns df) -> In "Type" (columns df) ->
  exists out,
    DataProcessor.clean_data df opening_balance_age = OK out
    /\ columns out = List.filter (fun c => negb (String.eqb c "Sale person")) (columns df)
    /\ Forall2 (fun r r' =>
         (exists q : Q, cell "Balance Due" r' = VNum q)
         /\ (exists q : Q, cell "Amount" r' = VNum q)
         /\ number_or_missing (cell "Age" r') = true
         /\ (cell "Type" r = VStr "Customer Opening Balance" ->
               cell "Age" r' = int opening_balance_age)
         /\ (forall d, d <> "Age" -> d <> "Amount" -> d <> "Balance Due" ->
                        d <> "Sale person" -> cell d r' = cell d r))
         (rows df) (rows out).
Proof.
  intros Hb Hm Ha Ht. eexists. split; [apply clean_data_rows; assumption|].
  cbn [columns rows]. split.
  - destruct (dropped_columns_cases df) as [[Hin ->]|[Hnot ->]].
    + apply filter_ext. intros c.
      destruct (String.eqb_spec c "Sale person") as [->|Hne].
      * rewrite bool_decide_eq_true_2; [reflexivity|]. apply list_elem_of_In. left. reflexivity.
      * rewrite bool_decide_eq_false_2; [reflexivity|].
        intros H. apply list_elem_of_In in H as [H|[]]. congruence.
    + rewrite !filter_all; [reflexivity| |].
      * intros c Hc. destruct (String.eqb_spec c "Sale person") as [->|]; [contradiction|reflexivity].
      * intros c _. reflexivity.
  - apply Forall2_map_r. intros r _.
    assert (Hty : cell "Type" (clean_currency_row "Amount" 0
                     (clean_currency_row "Balance Due" 0
                        (drop_row (dropped_columns df) r))) = cell "Type" r).
    { rewrite !clean_currency_row_other by discriminate.
      apply cell_drop_row, not_in_dropped. discriminate. }
    split; [|split; [|split; [|split]]].
    + unfold clean_row. rewrite clean_age_row_other by discriminate.
      rewrite clean_currency_row_other by discriminate.
      rewrite clean_currency_row_cell. apply clean_currency_cell_number.
    + unfold clean_row. rewrite clean_age_row_other by discriminate.
      rewrite clean_currency_row_cell. apply clean_currency_cell_number.
    + apply clean_age_row_number.
    + intros Hcob. unfold clean_row. rewrite clean_age_row_age, Hty, Hcob. reflexivity.
    + intros d H1 H2 H3 H4. apply cell_clean_row_other; try assumption.
      apply not_in_dropped, H4.
Qed.

Lemma clean_data_behaviour_witness :
  exists out, DataProcessor.clean_data sample_raw 300 = OK out
              /\ ~ In "Sale person" (columns out) /\ length (rows out) = 5.
Proof.
  destruct (clean_data_behaviour sample_raw 300) as (out & E & Hc & Hr);
    [simpl; tauto|simpl; tauto|simpl; tauto|simpl; tauto|].
  exists out. split; [exact E|]. split.
  - rewrite Hc. vm_compute. intuition discriminate.
  - rewrite <- (Forall2_length _ _ _ Hr). reflexivity.
Defined.

Lemma clean_data_cleaned_table (df : DataFrame) (opening_balance_age : Z) :
  (forall c, In c calculator_columns -> In c (columns df)) ->
  comparable (map (cell "Customer Name") (rows df)) = true ->
  exists cleaned,
    DataProcessor.clean_data df opening_balance_age = OK cleaned
    /\ cleaned_table cleaned = true.
Proof.
  intros Hc Hcmp. eexists.
  split; [apply clean_data_rows; apply Hc; simpl; tauto|].
  unfold cleaned_table. cbn [rows]. rewrite !andb_true_iff. split; [split|].
  - apply forallb_forall. intros c Hin. apply has_column_true. cbn [columns].
    apply in_undropped; [apply Hc, Hin|].
    intros ->. simpl in Hin. repeat (destruct Hin as [Hin|Hin]; [discriminate Hin|]).
    destruct Hin.
  - apply forallb_forall. intros r' Hr'. apply in_map_iff in Hr' as (r & <- & _).
    apply andb_true_iff. split; [apply clean_age_row_number|].
    unfold clean_row. rewrite clean_age_row_other by discriminate.
    rewrite clean_currency_row_other by discriminate.
    rewrite clean_currency_row_cell.
    destruct (clean_currency_cell_number 0
                (cell "Balance Due" (drop_row (dropped_columns df) r))) as [q ->].
    reflexivity.
  - rewrite map_map.
    rewrite (map_ext _ (cell "Customer Name")); [exact Hcmp|].
    intros r. apply cell_clean_row_other; try discriminate.
    apply not_in_dropped. discriminate.
Qed.

(** What the cleaner returns is what the calculator reads: a table with
    the fourteen input columns and customer names that can be ordered is
    cleaned without an error, and the cleaned table goes through
    [calculate_interest] under every configuration. *)
Theorem clean_data_feeds_calculate_interest (df : DataFrame) (opening_balance_age : Z) :
  (forall c, In c calculator_columns -> In c (columns df)) ->
  comparable (map (cell "Customer Name") (rows df)) = true ->
  exists cleaned,
    DataProcessor.clean_data df opening_balance_age = OK cleaned
    /\ cleaned_table cleaned = true
    /\ forall calc : InterestCalculator.t,
         exists interest, InterestCalculator.calculate_interest calc cleaned = OK interest.
Proof.
  intros Hc Hcmp.
  destruct (clean_data_cleaned_table df opening_balance_age Hc Hcmp) as (cleaned & E & Hclean).
  exists cleaned. split; [exact E|]. split; [exact Hclean|].
  intros calc. eexists. apply cleaned_table_runs, Hclean.
Qed.

Lemma clean_data_feeds_calculate_interest_witness :
  exists cleaned interest,
    DataProcessor.clean_data sample_raw 300 = OK cleaned
    /\ InterestCalculator.calculate_interest InterestCalculator.default cleaned = OK interest.
Proof.
  destruct (clean_data_feeds_calculate_interest sample_raw 300) as (cleaned & E & _ & H).
  - intros c Hc. simpl in Hc. simpl. tauto.
  - vm_compute. reflexivity.
  - destruct (H InterestCalculator.default) as [interest Hi].
    exists cleaned, interest. split; assumption.
Defined.




(** ** The interest calculator *)

Lemma traverse_err {A B : Type} (f : A -> result B) (e : error) (l : list A) :
  (forall x, In x l -> f x = Err e \/ exists y, f x = OK y) ->
  (exists x, In x l /\ f x = Err e) ->
  traverse f l = Err e.
Proof.
  induction l as [|a l IH]; intros Hall (x & Hx & Hfx); [destruct Hx|].
  simpl. destruct (Hall a (or_introl eq_refl)) as [Ha|[y Ha]]; rewrite Ha; [reflexivity|].
  rewrite bind_ok. rewrite IH; [reflexivity| |].
  - intros z Hz. apply Hall. right. exact Hz.
  - destruct Hx as [->|Hx]; [congruence|]. exists x. auto.
Qed.

(** The row filter reads the Age column: without it the calculator stops
    with KeyError('Age'), with a text age in any row (a table that was not
    cleaned) with a TypeError, and either error ends [calculate_interest];
    otherwise the filter keeps the rows above the threshold, in order. *)
Theorem filter_by_age_behaviour (self : InterestCalculator.t) (df : DataFrame) :
  InterestCalculator.filter_by_age self df
  = (if has_column df "Age"
     then if existsb (fun r => is_str (cell "Age" r)) (rows df)
          then Err TypeError
          else OK (mkDF (columns df)
                     (List.filter
                        (fun r => exceeds (InterestCalculator.due_days_threshold self)
                                    (cell "Age" r)) (rows df)))
     else Err (KeyError "Age"))
  /\ (forall e, InterestCalculator.filter_by_age self df = Err e ->
                InterestCalculator.calculate_interest self df = Err e).
Proof.
  split.
  - destruct (has_column df "Age") eqn:Hc.
    + apply has_column_true in Hc.
      destruct (existsb (fun r => is_str (cell "Age" r)) (rows df)) eqn:Hs.
      * unfold InterestCalculator.filter_by_age. rewrite getitem_ok by exact Hc.
        rewrite bind_ok. unfold series_gt. rewrite traverse_map.
        rewrite (traverse_err _ TypeError); [reflexivity| |].
        -- intros r _. destruct (cell "Age" r); simpl; eauto.
        -- apply existsb_exists in Hs as (r & Hr & Hstr). exists r. split; [exact Hr|].
           destruct (cell "Age" r); try discriminate. reflexivity.
      * apply filter_by_age_rows; [exact Hc|].
        intros r Hr. destruct (is_str (cell "Age" r)) eqn:E; [|reflexivity].
        assert (existsb (fun r => is_str (cell "Age" r)) (rows df) = true)
          by (apply existsb_exists; eauto).
        congruence.
    + unfold InterestCalculator.filter_by_age.
      rewrite getitem_missing by (apply has_column_false, Hc). reflexivity.
  - intros e H. unfold InterestCalculator.calculate_interest. rewrite H. reflexivity.
Qed.

Lemma interest_row_input_cell (self : InterestCalculator.t) (c : string)
    (r : gmap string value) :
  In c calculator_columns -> cell c (interest_row self r) = cell c r.
Proof.
  intros H. unfold interest_row.
  rewrite cell_project
    by (simpl in H; simpl; repeat (destruct H as [<-|H]; [tauto|]); destruct H).
  unfold amount_row, percentage_row, working_days_row.
  simpl in H. repeat (destruct H as [<-|H]; [cell_simpl; reflexivity|]). destruct H.
Qed.

Lemma length_filter_le {A : Type} (p : A -> bool) (l : list A) :
  length (List.filter p l) <= length l.
Proof.
  induction l as [|a l IH]; simpl; [lia|]. destruct (p a); simpl; lia.
Qed.

(** The interest table is in ascending order of customer name, has one row
    for each row of the cleaned table above the threshold, never more rows
    than the input, and repeats the fourteen input cells of each kept row
    unchanged. *)
Theorem calculate_interest_order_and_frame (self : InterestCalculator.t) (df : DataFrame) :
  cleaned_table df = true ->
  exists out kept,
    InterestCalculator.calculate_interest self df = OK out
    /\ Permutation kept
         (List.filter (fun r => exceeds (InterestCalculator.due_days_threshold self)
                                  (cell "Age" r)) (rows df))
    /\ Forall2 (fun r r' => forall c, In c calculator_columns -> cell c r' = cell c r)
         kept (rows out)
    /\ Sorted (fun r1 r2 =>
                 value_leb (cell "Customer Name" r1) (cell "Customer Name" r2) = true)
         (rows out)
    /\ length (rows out) <= length (rows df).
Proof.
  intros Hclean.
  exists (mkDF InterestCalculator.final_columns (map (interest_row self) (retained self df))),
    (retained self df).
  split; [apply cleaned_table_runs, Hclean|]. cbn [rows].
  split; [apply sort_by_perm|].
  split; [apply Forall2_map_r; intros r _ c Hc; apply interest_row_input_cell, Hc|].
  split.
  - apply Sorted_map.
    apply (Sorted_impl_in (lebP by_customer_name)).
    + intros x y _ _ H. unfold lebP, by_customer_name in H.
      rewrite !interest_row_input_cell by (simpl; tauto). exact H.
    + apply sort_by_sorted. intros x y. apply value_leb_total.
  - rewrite length_map. unfold retained. rewrite length_sort_by. apply length_filter_le.
Qed.

Lemma calculate_interest_order_and_frame_witness :
  exists out,
    InterestCalculator.calculate_interest InterestCalculator.default sample_cleaned = OK out
    /\ length (rows out) <= 4.
Proof.
  destruct (calculate_interest_order_and_frame InterestCalculator.default sample_cleaned)
    as (out & kept & E & _ & _ & _ & Hlen); [vm_compute; reflexivity|].
  exists out. split; [exact E|exact Hlen].
Defined.

Lemma rint_nonneg (q : Q) : (0 <= q)%Q -> (0 <= rint q)%Z.
Proof.
  intros H. assert (Hf : (0 <= Qfloor q)%Z).
  { change 0%Z with (Qfloor 0). apply Qfloor_resp_le, H. }
  unfold rint. destruct (_ ?= _)%Q; [destruct (Z.even _)| |]; lia.
Qed.

Lemma round_decimals_nonneg (d : nat) (q : Q) : (0 <= q)%Q -> (0 <= round_decimals d q)%Q.
Proof.
  intros H. unfold round_decimals.
  assert (Hp : (0 < inject_Z (10 ^ Z.of_nat d))%Q).
  { change 0%Q with (inject_Z 0). rewrite <- Zlt_Qlt. apply Z.pow_pos_nonneg; lia. }
  apply Qle_shift_div_l; [exact Hp|]. rewrite Qmult_0_l.
  change 0%Q with (inject_Z 0). rewrite <- Zle_Qle. apply rint_nonneg.
  apply Qmult_le_0_compat; [exact H|apply Qlt_le_weak, Hp].
Qed.

Lemma round_decimals_zero (d : nat) (q : Q) : (q == 0)%Q -> (round_decimals d q == 0)%Q.
Proof.
  intros H. rewrite (round_decimals_proper d q 0 H). unfold round_decimals.
  rewrite (rint_proper (0 * inject_Z (10 ^ Z.of_nat d)) (inject_Z 0)) by ring.
  rewrite rint_inject_Z. unfold Qdiv. ring.
Qed.

(** With a rate and a cap that are not negative, a balance that is not
    negative gives an interest amount that is not negative, and a balance
    of zero gives an amount of zero on a row that is still in the table. *)
Theorem interest_amount_nonnegative (self : InterestCalculator.t) (df : DataFrame) :
  cleaned_table df = true ->
  (0 <= InterestCalculator.per_day_rate self)%Q ->
  (0 <= InterestCalculator.max_working_days self)%Z ->
  exists out,
    InterestCalculator.calculate_interest self df = OK out
    /\ forall r', In r' (rows out) ->
         forall b : Q, cell "Balance Due" r' = VNum b -> (0 <= b)%Q ->
           exists x : Q, cell "interest amount" r' = VNum x /\ (0 <= x)%Q
                         /\ ((b == 0)%Q -> (x == 0)%Q).
Proof.
  intros Hclean Hrate Hcap.
  exists (mkDF InterestCalculator.final_columns (map (interest_row self) (retained self df))).
  split; [apply cleaned_table_runs, Hclean|]. cbn [rows].
  intros r' Hr' b Hb Hb0. apply in_map_iff in Hr' as (r & <- & Hr).
  rewrite interest_row_input_cell in Hb by (simpl; tauto).
  apply retained_spec in Hr as [Hin Hex].
  destruct (cleaned_table_spec df Hclean) as (_ & Hnum & _).
  destruct (Hnum r Hin) as [Hage _].
  destruct (cell "Age" r) as [s|a|bb|] eqn:E; try discriminate.
  apply exceeds_num in Hex.
  set (thr := inject_Z (InterestCalculator.due_days_threshold self)) in *.
  set (cap := InterestCalculator.max_working_days self) in *.
  set (rate := InterestCalculator.per_day_rate self) in *.
  set (w := Qred (clip_upper cap (Qred (a - thr)))).
  set (y := (Qred (b * Qred (Qred (w * Qred rate) / 100)))%Q).
  assert (Hcell : cell "interest amount" (interest_row self r) = VNum (Qred (round_decimals 4 y))).
  { unfold interest_row. rewrite cell_project by (simpl; tauto).
    unfold amount_row, percentage_row, working_days_row. cell_simpl. rewrite E, Hb.
    reflexivity. }
  assert (Hw : (0 <= w)%Q).
  { unfold w. rewrite Qred_correct, clip_upper_min, Qred_correct.
    apply Q.min_glb; [lra|]. change 0%Q with (inject_Z 0). rewrite <- Zle_Qle. exact Hcap. }
  assert (Hy : (y == b * (w * rate / 100))%Q).
  { unfold y. rewrite !Qred_correct. reflexivity. }
  exists (Qred (round_decimals 4 y)). split; [exact Hcell|]. split.
  - rewrite Qred_correct. apply round_decimals_nonneg. rewrite Hy.
    apply Qmult_le_0_compat; [exact Hb0|].
    apply Qle_shift_div_l; [reflexivity|]. rewrite Qmult_0_l.
    apply Qmult_le_0_compat; assumption.
  - intros Hz. rewrite Qred_correct. apply round_decimals_zero. rewrite Hy, Hz. ring.
Qed.

Lemma interest_amount_nonnegative_witness :
  exists out,
    InterestCalculator.calculate_interest InterestCalculator.default sample_cleaned = OK out.
Proof.
  destruct (interest_amount_nonnegative InterestCalculator.default sample_cleaned)
    as (out & E & _); [vm_compute; reflexivity|vm_compute; discriminate|simpl; lia|].
  exists out. exact E.
Defined.

Lemma lookup_project (cols : list string) (c : string) (r : gmap string value) :
  project cols r !! c = if bool_decide (c ∈ cols) then Some (cell c r) else None.
Proof.
  induction cols as [|d cols IH].
  - change (project [] r) with (∅ : gmap string value).
    rewrite bool_decide_eq_false_2 by (intros H; inversion H). apply lookup_empty.
  - change (project (d :: cols) r) with (<[d := cell d r]> (project cols r)).
    destruct (decide (d = c)) as [->|Hne].
    + rewrite lookup_insert_eq. rewrite bool_decide_eq_true_2; [reflexivity|].
      apply list_elem_of_In. left. reflexivity.
    + rewrite lookup_insert_ne by exact Hne. rewrite IH.
      destruct (bool_decide (c ∈ cols)) eqn:E.
      * apply bool_decide_eq_true in E. rewrite bool_decide_eq_true_2; [reflexivity|].
        apply list_elem_of_In. right. apply list_elem_of_In, E.
      * apply bool_decide_eq_false in E. rewrite bool_decide_eq_false_2; [reflexivity|].
        intros H. apply list_elem_of_In in H as [H|H]; [congruence|].
        apply E, list_elem_of_In, H.
Qed.

Lemma project_domain (cols : list string) (c : string) (r : gmap string value) :
  is_Some (project cols r !! c) <-> In c cols.
Proof.
  rewrite lookup_project. destruct (bool_decide (c ∈ cols)) eqn:E.
  - apply bool_decide_eq_true, list_elem_of_In in E. split; [auto|]. intros _. eauto.
  - apply bool_decide_eq_false in E. split.
    + intros [x Hx]. discriminate Hx.
    + intros H. exfalso. apply E, list_elem_of_In, H.
Qed.

(** Whatever table [calculate_interest] accepts, the table it returns has
    the twenty interest columns in their fixed order, and every row holds a
    cell for each of them and for nothing else: other input columns are
    dropped. *)
Theorem interest_table_has_exactly_the_final_columns
    (self : InterestCalculator.t) (df out : DataFrame) :
  InterestCalculator.calculate_interest self df = OK out ->
  columns out = InterestCalculator.final_columns
  /\ forall r, In r (rows out) ->
       forall c, is_Some (r !! c) <-> In c InterestCalculator.final_columns.
Proof.
  unfold InterestCalculator.calculate_interest.
  destruct (InterestCalculator.filter_by_age self df) as [d1|e];
    [rewrite bind_ok|intros H; discriminate H].
  destruct (sort_values d1 "Customer Name") as [d2|e];
    [rewrite bind_ok|intros H; discriminate H].
  destruct (InterestCalculator.calculate_working_days self (reset_index d2)) as [d3|e];
    [rewrite bind_ok|intros H; discriminate H].
  destruct (InterestCalculator.calculate_interest_percentage self d3) as [d4|e];
    [rewrite bind_ok|intros H; discriminate H].
  destruct (InterestCalculator.calculate_interest_amount self d4) as [d5|e];
    [rewrite bind_ok|intros H; discriminate H].
  unfold InterestCalculator.select_final_columns, getcols.
  destruct (missing_column d5 InterestCalculator.final_columns); intros H; inversion H.
  cbn [columns rows]. split; [reflexivity|].
  intros r Hr c. apply in_map_iff in Hr as (x & <- & _). apply project_domain.
Qed.

Lemma interest_table_has_exactly_the_final_columns_witness :
  exists out,
    InterestCalculator.calculate_interest InterestCalculator.default sample_cleaned = OK out
    /\ columns out = InterestCalculator.final_columns.
Proof.
  eexists. split; [vm_compute; reflexivity|].
  apply (interest_table_has_exactly_the_final_columns InterestCalculator.default
           sample_cleaned).
  vm_compute. reflexivity.
Defined.

(** ** The debit-note generator *)














Lemma length_nub_by_le {A : Type} (eqb : A -> A -> bool) (l : list A) :
  length (nub_by eqb l) <= length l.
Proof.
  induction l as [|a l IH]; simpl; [lia|].
  pose proof (length_filter_le (fun y => negb (eqb a y)) (nub_by eqb l)). lia.
Qed.

(** There is one debit note for each distinct complete key, so never more
    debit notes than interest rows, and none for an empty table. *)
Theorem debit_notes_count (self : DebitNoteGenerator.t) (today : string) (df : DataFrame) :
  generator_input df = true ->
  exists out,
    DebitNoteGenerator.generate_debit_notes self today df = OK out
    /\ length (rows out) = length (group_index df DebitNoteGenerator.group_keys)
    /\ length (rows out) <= length (rows df)
    /\ (rows df = [] -> rows out = []).
Proof.
  intros Hin.
  exists (mkDF DebitNoteGenerator.cols_to_keep (debit_notes self today df)).
  split; [apply generator_input_runs, Hin|]. cbn [rows].
  assert (Hlen : length (debit_notes self today df)
                 = length (group_index df DebitNoteGenerator.group_keys)).
  { unfold debit_notes. rewrite length_map, length_indexed. reflexivity. }
  assert (Hle : length (group_index df DebitNoteGenerator.group_keys) <= length (rows df)).
  { unfold group_index. rewrite length_sort_by.
    pose proof (length_nub_by_le key_eqb
                  (map (key_of DebitNoteGenerator.group_keys)
                     (keyed_rows df DebitNoteGenerator.group_keys))) as H.
    rewrite length_map in H. unfold keyed_rows in *.
    pose proof (length_filter_le
                  (fun r => negb (existsb is_nan (key_of DebitNoteGenerator.group_keys r)))
                  (rows df)). lia. }
  split; [exact Hlen|]. split; [lia|].
  intros E. rewrite E in Hle. simpl in Hle.
  destruct (debit_notes self today df); [reflexivity|simpl in Hlen; lia].
Qed.

Lemma debit_notes_count_witness :
  exists out,
    DebitNoteGenerator.generate_debit_notes DebitNoteGenerator.default "2026-01-05"
      sample_interest = OK out
    /\ length (rows out) <= 4.
Proof.
  destruct (debit_notes_count DebitNoteGenerator.default "2026-01-05" sample_interest)
    as (out & E & _ & Hle & _); [vm_compute; reflexivity|].
  exists out. split; [exact E|exact Hle].
Defined.




Section NoteFields.
Variables (self : DebitNoteGenerator.t) (today : string) (df : DataFrame).

Ltac fixed_cell :=
  unfold debit_note; rewrite cell_project by (simpl; tauto);
  unfold rename_row at 1; cell_simpl; unfold fields_row; cell_simpl; reflexivity.

Lemma note_fixed_fields (p : nat * list value) :
  let n := debit_note self today df p in
  cell "Invoice Date" n = VStr today
  /\ cell "Invoice Status" n = VStr "Open"
  /\ cell "Accounts Receivable" n = VStr "Accounts Receivable"
  /\ cell "Is Inclusive Tax" n = VBool true
  /\ cell "Invoice Type" n = VStr "Debit Notes"
  /\ cell "Location Name" n = VStr "Head Office"
  /\ cell "Quantity" n = int 1
  /\ cell "Item Type" n = VStr "service"
  /\ cell "Reason for issuing Debit Note" n = VStr "Others"
  /\ cell "Account" n = VStr "OD CHARGES"
  /\ cell "Line Item Location Name" n = VStr "HEAD OFFICE"
  /\ cell "Supply Type" n = VStr "Out of Scope"
  /\ cell "CF.Bill Type" n = VStr "Credit".
Proof. cbv zeta. repeat split; fixed_cell. Qed.

Lemma note_customer_name (i : nat) (r : gmap string value) :
  cell "Customer Name" (debit_note self today df (i, key_of DebitNoteGenerator.group_keys r))
  = cell "Customer Name" r.
Proof.
  unfold debit_note. rewrite cell_project by (simpl; tauto).
  unfold rename_row at 1. cell_simpl.
  unfold fields_row, rounded_row, rename_row, group_row. cell_simpl.
  simpl. cell_simpl. reflexivity.
Qed.

End NoteFields.

(** Every debit note has exactly the 24 columns of the import format, so
    the area and the region it was grouped by are gone, and its fixed
    fields are the same whatever the input: status Open, quantity 1, tax
    inclusive, the given date, and the literals of the accounts. *)
Theorem debit_note_columns_and_fixed_fields
    (self : DebitNoteGenerator.t) (today : string) (df : DataFrame) :
  generator_input df = true ->
  exists out,
    DebitNoteGenerator.generate_debit_notes self today df = OK out
    /\ columns out = DebitNoteGenerator.cols_to_keep
    /\ ~ In "Area Name" (columns out) /\ ~ In "Region" (columns out)
    /\ forall n, In n (rows out) ->
         (forall c, is_Some (n !! c) <-> In c DebitNoteGenerator.cols_to_keep)
         /\ cell "Invoice Date" n = VStr today
         /\ cell "Invoice Status" n = VStr "Open"
         /\ cell "Accounts Receivable" n = VStr "Accounts Receivable"
         /\ cell "Is Inclusive Tax" n = VBool true
         /\ cell "Invoice Type" n = VStr "Debit Notes"
         /\ cell "Location Name" n = VStr "Head Office"
         /\ cell "Quantity" n = int 1
         /\ cell "Item Type" n = VStr "service"
         /\ cell "Reason for issuing Debit Note" n = VStr "Others"
         /\ cell "Account" n = VStr "OD CHARGES"
         /\ cell "Line Item Location Name" n = VStr "HEAD OFFICE"
         /\ cell "Supply Type" n = VStr "Out of Scope"
         /\ cell "CF.Bill Type" n = VStr "Credit".
Proof.
  intros Hin.
  exists (mkDF DebitNoteGenerator.cols_to_keep (debit_notes self today df)).
  split; [apply generator_input_runs, Hin|]. cbn [rows columns].
  split; [reflexivity|].
  split; [intros H; simpl in H; repeat (destruct H as [H|H]; [discriminate H|]); exact H|].
  split; [intros H; simpl in H; repeat (destruct H as [H|H]; [discriminate H|]); exact H|].
  intros n Hn. unfold debit_notes in Hn. apply in_map_iff in Hn as (p & <- & _).
  split; [|apply note_fixed_fields].
  intros c. unfold debit_note. apply project_domain.
Qed.

Lemma debit_note_columns_and_fixed_fields_witness :
  exists out,
    DebitNoteGenerator.generate_debit_notes DebitNoteGenerator.default "2026-01-05"
      sample_interest = OK out
    /\ columns out = DebitNoteGenerator.cols_to_keep.
Proof.
  destruct (debit_note_columns_and_fixed_fields DebitNoteGenerator.default "2026-01-05"
              sample_interest) as (out & E & Hc & _); [vm_compute; reflexivity|].
  exists out. split; [exact E|exact Hc].
Defined.

Lemma key_eqb_customer (r1 r2 : gmap string value) :
  key_eqb (key_of DebitNoteGenerator.group_keys r1) (key_of DebitNoteGenerator.group_keys r2)
  = true ->
  value_eqb (cell "Customer Number" r1) (cell "Customer Number" r2) = true
  /\ value_eqb (cell "Customer Name" r1) (cell "Customer Name" r2) = true.
Proof.
  simpl. rewrite !andb_true_iff. tauto.
Qed.

(** Every debit note is the note of a group of input rows: it carries the
    customer number (as Customer ID), the customer name and the salesperson
    of a row of the input whose key is complete; and every input row with a
    complete key is billed in a note with its number, name and
    salesperson. *)
Theorem debit_notes_and_groups
    (self : DebitNoteGenerator.t) (today : string) (df : DataFrame) :
  generator_input df = true ->
  exists out,
    DebitNoteGenerator.generate_debit_notes self today df = OK out
    /\ (forall n, In n (rows out) ->
          exists r, In r (rows df)
            /\ existsb is_nan (key_of DebitNoteGenerator.group_keys r) = false
            /\ cell "Customer ID" n = cell "Customer Number" r
            /\ cell "Customer Name" n = cell "Customer Name" r
            /\ cell "Sales person" n = cell "Sales person" r)
    /\ (forall r, In r (rows df) ->
          existsb is_nan (key_of DebitNoteGenerator.group_keys r) = false ->
          exists n, In n (rows out)
            /\ value_eqb (cell "Customer ID" n) (cell "Customer Number" r) = true
            /\ value_eqb (cell "Customer Name" n) (cell "Customer Name" r) = true
            /\ value_eqb (cell "Sales person" n) (cell "Sales person" r) = true).
Proof.
  intros Hin.
  exists (mkDF DebitNoteGenerator.cols_to_keep (debit_notes self today df)).
  split; [apply generator_input_runs, Hin|]. cbn [rows]. split.
  - intros n Hn. unfold debit_notes in Hn. apply in_map_iff in Hn as ([i k] & <- & Hp).
    apply in_indexed in Hp. simpl in Hp. apply in_group_index in Hp as (r & Hr & -> & Hk).
    exists r. split; [exact Hr|]. split; [exact Hk|].
    rewrite note_customer_id, note_customer_name, note_sales_person. auto.
  - intros r Hr Hk.
    destruct (group_index_covers df DebitNoteGenerator.group_keys r Hr Hk) as (i & k & Hi & E).
    assert (Hin' : In k (group_index df DebitNoteGenerator.group_keys)).
    { apply list_elem_of_In, list_elem_of_lookup. exists i. exact Hi. }
    destruct (in_group_index _ _ _ Hin') as (x & _ & Ex & _). subst k.
    exists (debit_note self today df (i, key_of DebitNoteGenerator.group_keys x)).
    split.
    + apply list_elem_of_In, list_elem_of_lookup. exists i.
      apply lookup_debit_notes. exists (key_of DebitNoteGenerator.group_keys x). auto.
    + rewrite note_customer_id, note_customer_name, note_sales_person.
      destruct (key_eqb_customer _ _ E) as [E1 E2].
      split; [exact E1|]. split; [exact E2|]. apply key_eqb_sales_person, E.
Qed.

Lemma debit_notes_and_groups_witness :
  exists out,
    DebitNoteGenerator.generate_debit_notes DebitNoteGenerator.default "2026-01-05"
      sample_interest = OK out
    /\ forall n, In n (rows out) ->
         exists r, In r (rows sample_interest)
                   /\ cell "Customer ID" n = cell "Customer Number" r.
Proof.
  destruct (debit_notes_and_groups DebitNoteGenerator.default "2026-01-05" sample_interest)
    as (out & E & H & _); [vm_compute; reflexivity|].
  exists out. split; [exact E|].
  intros n Hn. destruct (H n Hn) as (r & Hr & _ & Hid & _). exists r. auto.
Defined.

(** ** The processing step of the application *)

(** Whatever is uploaded and whatever the settings are, the processing
    step never stores a result: it always ends in an exception. *)
Theorem process_never_succeeds (s : App.settings) (today : string) (df_raw : DataFrame) :
  exists e, App.process s today df_raw = Err e.
Proof.
  unfold App.process.
  destruct (DataProcessor.filter_overdue df_raw) as [d1|e]; [rewrite bind_ok|eauto].
  destruct (DataProcessor.clean_data d1 DataProcessor.default_opening_balance_age) as [d2|e];
    [rewrite bind_ok|eauto].
  destruct (InterestCalculator.calculate_interest _ d2) as [d3|e] eqn:E3;
    [rewrite bind_ok|eauto].
  rewrite (generate_without_sales_person _ _ d3 (calculate_interest_columns _ _ _ E3)).
  eauto.
Qed.

(** On an upload that has the expected columns and customer names that can
    be ordered, every step up to the interest table runs, and the exception
    is the KeyError of the column "Sales person" raised by the grouping. *)
Theorem process_stops_at_the_grouping (s : App.settings) (today : string) (df_raw : DataFrame) :
  (forall c, In c calculator_columns -> In c (columns df_raw)) ->
  comparable (map (cell "Customer Name") (List.filter is_overdue (rows df_raw))) = true ->
  exists interest,
    (df_filtered ← DataProcessor.filter_overdue df_raw;
     df_cleaned ← DataProcessor.clean_data df_filtered
                    DataProcessor.default_opening_balance_age;
     InterestCalculator.calculate_interest
       (InterestCalculator.init (App.per_day_rate s) (App.due_days_threshold s)
          (App.max_working_days s)) df_cleaned) = OK interest
    /\ App.process s today df_raw = Err (KeyError "Sales person").
Proof.
  intros Hc Hcmp.
  pose proof (filter_overdue_rows df_raw) as Ef.
  assert (Hs : has_column df_raw "Status" = true)
    by (apply has_column_true, Hc; simpl; tauto).
  rewrite Hs in Ef.
  destruct (clean_data_cleaned_table
              (mkDF (columns df_raw) (List.filter is_overdue (rows df_raw)))
              DataProcessor.default_opening_balance_age Hc Hcmp) as (cleaned & Ec & Hclean).
  pose proof (cleaned_table_runs
                (InterestCalculator.init (App.per_day_rate s) (App.due_days_threshold s)
                   (App.max_working_days s)) cleaned Hclean) as Ei.
  eexists. unfold App.process.
  rewrite Ef, !bind_ok, Ec, !bind_ok, Ei. split; [reflexivity|].
  rewrite bind_ok.
  rewrite (generate_without_sales_person _ _ _ (calculate_interest_columns _ _ _ Ei)).
  reflexivity.
Qed.

Lemma process_stops_at_the_grouping_witness :
  App.process App.default_settings "2026-01-05" sample_raw = Err (KeyError "Sales person").
Proof.
  destruct (process_stops_at_the_grouping App.default_settings "2026-01-05" sample_raw)
    as (interest & _ & E).
  - intros c Hc. simpl in Hc. simpl. tauto.
  - vm_compute. reflexivity.
  - exact E.
Defined.
